(** * UserService: session-backed authentication

    A shallow embedding of the two JavaScript modules of the repository that
    carry the authentication core:

    - [SessionManager] (class [SessionManager]: constructor, [_createStore]);
    - [UserRoutes] (the express handlers [GetUser], [CreateUser],
      [GetUserById], [DeleteUserById] and the resolver [_LoadLoggedInUser]).

    Handlers are [async] functions that mutate [req.session], call methods on
    [res], call [next(err)] and may throw.  They are embedded as computations
    in a state-and-exception monad over a [World] that holds the session
    attached to the request, the session store, the user database and the
    trace of calls made on [res] and [next].  One handler runs from start to
    end without interleaving with another request. *)

From Stdlib Require Import Ascii String ZArith.
From stdpp Require Import gmap strings list pretty.

Local Open Scope Z_scope.

(** ** JavaScript values *)

Module JS.

(** A JavaScript number as far as the handlers see one: the result of
    [parseInt] (an integer or [NaN]) or an integer id.  The integer is kept
    exact; JavaScript rounds integers beyond 2^53 to the nearest double. *)
Inductive Number : Type :=
  | NaN
  | Int (z : Z).

(** The values a JSON request body or a validator can hand to a handler. *)
Inductive Value : Type :=
  | Undefined
  | Null
  | Bool (b : bool)
  | Num (n : Number)
  | Str (s : string)
  | Object.

#[global] Instance Number_eq_dec : EqDecision Number.
Proof. solve_decision. Defined.

#[global] Instance Value_eq_dec : EqDecision Value.
Proof. solve_decision. Defined.

(** [ToBoolean]: what [if (v)] tests. *)
Definition truthy (v : Value) : bool :=
  match v with
  | Undefined | Null => false
  | Bool b => b
  | Num NaN => false
  | Num (Int z) => negb (z =? 0)
  | Str s => negb (String.eqb s "")
  | Object => true
  end.

(** An error object: its constructor name and its message. *)
Record Error : Type := mkError { err_name : string; err_message : string }.

#[global] Instance Error_eq_dec : EqDecision Error.
Proof. solve_decision. Defined.

(** *** [parseInt(string)] with no radix argument

    Leading white space is skipped, one sign is read, a [0x]/[0X] prefix
    selects radix 16 (radix 10 otherwise), and the longest prefix of digits
    of that radix is the value; with no digit the result is [NaN].  Whatever
    follows the digits is ignored.  Strings are sequences of code units
    below 256. *)

Definition is_white (c : ascii) : bool :=
  let n := Z.of_nat (nat_of_ascii c) in
  ((9 <=? n) && (n <=? 13)) || (n =? 32) || (n =? 160).

Fixpoint skip_white (s : string) : string :=
  match s with
  | String c s' => if is_white c then skip_white s' else s
  | EmptyString => s
  end.

Definition digit_of (c : ascii) : option Z :=
  let n := Z.of_nat (nat_of_ascii c) in
  if (48 <=? n) && (n <=? 57) then Some (n - 48)
  else if (97 <=? n) && (n <=? 122) then Some (n - 87)
  else if (65 <=? n) && (n <=? 90) then Some (n - 55)
  else None.

(** The value of the longest prefix of radix-[R] digits, [acc] being the
    value read so far ([None]: no digit yet). *)
Fixpoint digits (R : Z) (s : string) (acc : option Z) : option Z :=
  match s with
  | String c s' =>
      match digit_of c with
      | Some d => if d <? R then digits R s' (Some (default 0 acc * R + d)) else acc
      | None => acc
      end
  | EmptyString => acc
  end.

Definition read_sign (s : string) : Z * string :=
  match s with
  | String "-" r => (-1, r)
  | String "+" r => (1, r)
  | _ => (1, s)
  end.

Definition read_radix (s : string) : Z * string :=
  match s with
  | String "0" (String "x" r) => (16, r)
  | String "0" (String "X" r) => (16, r)
  | _ => (10, s)
  end.

Definition parseInt (s : string) : Number :=
  let '(sign, s1) := read_sign (skip_white s) in
  let '(R, s2) := read_radix s1 in
  match digits R s2 None with
  | None => NaN
  | Some m => Int (sign * m)
  end.

(** [parseInt(v)] for a value that may be [undefined]: the argument goes
    through [ToString] first. *)
Definition parseInt_opt (v : option string) : Number :=
  parseInt (default "undefined" v).

End JS.

Import JS.

(** ** Computations with state and exceptions

    [M S A]: a computation over a state [S] that returns an [A] or throws.
    The state reached before a [throw] is kept: what a function did before
    it threw stays done. *)

Module Eff.

Inductive Result (A : Type) : Type :=
  | Return (a : A)
  | Throw (e : Error).
Arguments Return {A} a.
Arguments Throw {A} e.

Definition M (S A : Type) : Type := S → Result A * S.

Definition ret {S A} (a : A) : M S A := λ s, (Return a, s).

Definition bind {S A B} (c : M S A) (k : A → M S B) : M S B :=
  λ s, match c s with
       | (Return a, s') => k a s'
       | (Throw e, s') => (Throw e, s')
       end.

Definition throw {S A} (e : Error) : M S A := λ s, (Throw e, s).

Definition get {S} : M S S := λ s, (Return s, s).

Definition modify {S} (f : S → S) : M S unit := λ s, (Return tt, f s).

(** [try { c } catch (err) { h(err) }] *)
Definition try_catch {S A} (c : M S A) (h : Error → M S A) : M S A :=
  λ s, match c s with
       | (Return a, s') => (Return a, s')
       | (Throw e, s') => h e s'
       end.

#[global] Instance M_ret {S} : MRet (M S) := λ A, ret.
#[global] Instance M_bind {S} : MBind (M S) := λ A B k c, bind c k.

End Eff.

Import Eff.

(** ** Configuration

    [config/Config.js] is not among the sources.  The record has the fields
    the two modules read from [Config.server]; every function that reads the
    configuration takes it as an argument. *)

Module Config.

Record CookieConfig : Type := {
  secure : Value;
  sameSite : Value;
  httpOnly : Value;
  maxAge : option Z
}.

Record SessionConfig : Type := {
  name : string;
  cookie : CookieConfig;
  resave : bool;
  saveUninitialized : bool;
  maxAgeDays : Z
}.

Record MemoryStoreConfig : Type := {
  checkPeriod : Z;
  noDisposeOnSet : bool
}.

Record RedisConfig : Type := {
  host : string;
  port : Z
}.

Record StoreConfig : Type := {
  type : string;
  memoryStoreConfig : MemoryStoreConfig;
  redisConfig : RedisConfig
}.

(** [Config.server] *)
Record t : Type := {
  session : SessionConfig;
  sessionStore : StoreConfig
}.

End Config.

(** ** [SessionManager.js] *)

Module SessionManager.

(** The store objects [_createStore] can build. *)
Inductive Store : Type :=
  | MemoryStore (checkPeriod : Z) (noDisposeOnSet : bool) (reaping : bool)
  | RedisStore (host : string) (port : Z).

(** What [session(this.sessionConfig)] is built from. *)
Record Middleware : Type := {
  mw_config : Config.SessionConfig;
  mw_store : option Store
}.

(** The instance under construction: the properties the class assigns on
    [this], [None] while unassigned.  [sessionConfig_store] is
    [this.sessionConfig['store']]. *)
Record This : Type := {
  sessionConfig : option Config.SessionConfig;
  sessionConfig_store : option Store;
  storeConfig : option Config.StoreConfig;
  store : option Store;
  redisClient : option (string * Z);
  _middleware : option Middleware
}.

(** The object [new] hands to the constructor. *)
Definition empty_this : This :=
  {| sessionConfig := None; sessionConfig_store := None; storeConfig := None;
     store := None; redisClient := None; _middleware := None |}.

(** The bindings of the module's top-level scope: the six imports, [log],
    [MemoryStore] and the class itself. *)
Definition module_scope : list string :=
  ["session"; "mstore"; "Config"; "GetModuleLogger"; "redis"; "connectRedis";
   "log"; "MemoryStore"; "SessionManager"].

(** The members of the class body.  They are properties of the prototype,
    reached through [this.], and bind no identifier. *)
Definition class_members : list string :=
  ["constructor"; "_createStore"; "middleware"; "_logConfig"].

(** Evaluating a free identifier [x] (as in the call [x()]) inside the
    constructor, which declares no parameter and no local: [x] is looked up
    in the module scope, and an unresolvable reference throws. *)
Definition resolve_identifier (x : string) : M This unit :=
  if bool_decide (x ∈ module_scope) then mret tt
  else throw (mkError "ReferenceError" (x +:+ " is not defined")).

(** [_createStore()].  A [Config.t] carries both sub-configurations and the
    store constructors are taken to succeed: the [TypeError] of a missing
    sub-configuration and the errors of the store libraries are not
    modelled. *)
Definition _createStore (Config : Config.t) : M This unit :=
  let storeConfig := Config.sessionStore Config in
  modify (λ this,
    {| sessionConfig := sessionConfig this;
       sessionConfig_store := sessionConfig_store this;
       storeConfig := Some storeConfig;
       store := store this; redisClient := redisClient this;
       _middleware := _middleware this |}) ;;
  if String.eqb (Config.type storeConfig) "memorystore" then
    let c := Config.memoryStoreConfig storeConfig in
    modify (λ this,
      {| sessionConfig := sessionConfig this;
         sessionConfig_store := sessionConfig_store this;
         storeConfig := SessionManager.storeConfig this;
         store := Some (MemoryStore (Config.checkPeriod c) (Config.noDisposeOnSet c) true);
         redisClient := redisClient this;
         _middleware := _middleware this |})
  else if String.eqb (Config.type storeConfig) "redis" then
    let c := Config.redisConfig storeConfig in
    modify (λ this,
      {| sessionConfig := sessionConfig this;
         sessionConfig_store := sessionConfig_store this;
         storeConfig := SessionManager.storeConfig this;
         store := Some (RedisStore (Config.host c) (Config.port c));
         redisClient := Some (Config.host c, Config.port c);
         _middleware := _middleware this |})
  else mret tt.

(** [_logConfig] only logs, but reads [this.sessionConfig.cookie] and
    [this.storeConfig.checkPeriod] on the way: reading a property of
    [undefined] throws. *)
Definition _logConfig : M This unit :=
  this ← get;
  match sessionConfig this, storeConfig this with
  | Some _, Some _ => mret tt
  | _, _ => throw (mkError "TypeError" "Cannot read properties of undefined")
  end.

(** [constructor()]; the [log.info] calls are left out. *)
Definition constructor (Config : Config.t) : M This unit :=
  modify (λ this,
    {| sessionConfig := Some (Config.session Config);
       sessionConfig_store := sessionConfig_store this;
       storeConfig := storeConfig this;
       store := store this; redisClient := redisClient this;
       _middleware := _middleware this |}) ;;
  (* _createStore(); *)
  resolve_identifier "_createStore" ;;
  _createStore Config ;;
  (* this.sessionConfig['store'] = this.store; *)
  modify (λ this,
    {| sessionConfig := sessionConfig this;
       sessionConfig_store := store this;
       storeConfig := storeConfig this;
       store := store this; redisClient := redisClient this;
       _middleware := _middleware this |}) ;;
  (* this._middleware = session(this.sessionConfig); *)
  this ← get;
  match sessionConfig this with
  | None => throw (mkError "TypeError" "Cannot read properties of undefined")
  | Some c =>
      modify (λ this,
        {| sessionConfig := sessionConfig this;
           sessionConfig_store := sessionConfig_store this;
           storeConfig := storeConfig this;
           store := store this; redisClient := redisClient this;
           _middleware := Some {| mw_config := c; mw_store := sessionConfig_store this |} |})
  end ;;
  _logConfig.

(** [new SessionManager()] *)
Definition new (Config : Config.t) : Result unit * This :=
  constructor Config empty_this.

End SessionManager.

(** ** The user model

    [src/models/User.js] is not among the sources.  The routes use it through
    three methods, each awaited, each returning something truthy or falsy and
    leaving the row in [user.UserObject]; the class below is that interface
    over a database type [DB].  A method that fails returns [None] and leaves
    the database as it was.  Rejected promises of the model are not modelled. *)

Module User.

Record UserObject : Type := {
  id : Z;
  email : Value;
  firstName : Value;
  lastName : Value
}.

#[global] Instance UserObject_eq_dec : EqDecision UserObject.
Proof. solve_decision. Defined.

Class Model (DB : Type) : Type := {
  (** [user.Load(id)] *)
  Load : DB → Number → option UserObject;
  (** [user.Create(email, firstName, lastName, password)] *)
  Create : DB → Value → Value → Value → Value → option (UserObject * DB);
  (** [user.Delete(id)] *)
  Delete : DB → Number → option (UserObject * DB)
}.

End User.

Import User.

(** ** The routes ([UserRoutes]) *)

Module UserRoutes.

(** [req.session.cookie]: the routes touch [maxAge] only. *)
Record Cookie : Type := { maxAge : option Z }.

(** [req.session]: [user_id] is [None] when the object has no such key. *)
Record Session : Type := {
  sid : string;
  user_id : option Z;
  cookie : Cookie
}.

#[global] Instance Cookie_eq_dec : EqDecision Cookie.
Proof. solve_decision. Defined.

#[global] Instance Session_eq_dec : EqDecision Session.
Proof. solve_decision. Defined.

(** What a handler reads from [req] and never writes. *)
Record Request : Type := {
  params : gmap string string;
  body : gmap string Value
}.

(** The argument of [res.json]. *)
Inductive Payload : Type :=
  | JsonUser (u : UserObject)
  | JsonMessage (message : Value).

(** The calls a handler makes on [res] and [next], in order. *)
Inductive Call : Type :=
  | res_status_json (code : Z) (p : Payload)
  | res_sendStatus (code : Z)
  | res_clearCookie
  | next (err : Error).

#[global] Instance Payload_eq_dec : EqDecision Payload.
Proof. solve_decision. Defined.

#[global] Instance Call_eq_dec : EqDecision Call.
Proof. solve_decision. Defined.

(** What one request can read and change: the session attached to [req]
    ([None] once destroyed), the session store, the user database, and the
    calls made so far. *)
Record World (DB : Type) : Type := {
  session : option Session;
  store : gmap string Session;
  users : DB;
  calls : list Call
}.
Arguments session {DB} w.
Arguments store {DB} w.
Arguments users {DB} w.
Arguments calls {DB} w.

Section Routes.

Context {DB : Type} `{!User.Model DB}.

(** [Config.server], [SignupRequest.validateRequest] (it returns
    [{error, message}]) and [Validation.ValidateNumber] (it returns an error
    message, or something falsy) are imported from files that are not among
    the sources. *)
Variable Config : Config.t.
Variable validateRequest : Request → Value * Value.
Variable ValidateNumber : Number → Value.

(** The world [w] after the calls [cs]. *)
Definition after_calls (w : World DB) (cs : list Call) : World DB :=
  {| session := session w; store := store w; users := users w;
     calls := calls w ++ cs |}.

Definition call (c : Call) : M (World DB) unit :=
  modify (λ w, after_calls w [c]).

Definition set_session (s : option Session) : M (World DB) unit :=
  modify (λ w, {| session := s; store := store w; users := users w;
                  calls := calls w |}).

Definition set_users (db : DB) : M (World DB) unit :=
  modify (λ w, {| session := session w; store := store w; users := db;
                  calls := calls w |}).

(** Reading [req.session] to use it as an object: a [TypeError] when it is
    [undefined]. *)
Definition req_session : M (World DB) Session :=
  w ← get;
  match session w with
  | Some s => mret s
  | None => throw (mkError "TypeError" "req.session is undefined")
  end.

(** Modelled from the spec: [DeleteSession] of [./Helpers.js], which is not
    among the sources.  "Destroy the session (remove it from SessionStore and
    clear the response cookie)"; it "must succeed even if the session was
    already stale/absent".  A destroyed session is no longer attached to the
    request. *)
Definition destroyed (w : World DB) : World DB :=
  {| session := None;
     store := match session w with
              | Some s => delete (sid s) (store w)
              | None => store w
              end;
     users := users w;
     calls := calls w ++ [res_clearCookie] |}.

Definition DeleteSession : M (World DB) unit := modify destroyed.

Definition stale_error : Error :=
  mkError "Error" "stale user session deleted, please try again".

(** [_LoadLoggedInUser(req, res)]: the user, or [None] for [null]. *)
Definition _LoadLoggedInUser : M (World DB) (option UserObject) :=
  s ← req_session;
  match user_id s with
  | Some uid =>
      w ← get;
      match Load (users w) (Int uid) with
      | Some u => mret (Some u)
      | None =>
          DeleteSession ;;
          throw stale_error
      end
  | None => mret None
  end.

(** [GET /user] *)
Definition GetUser : M (World DB) unit :=
  try_catch
    (user ← _LoadLoggedInUser;
     match user with
     | Some u => call (res_status_json 200 (JsonUser u))
     | None => call (res_status_json 202 (JsonMessage (Str "user not logged in")))
     end)
    (λ err, call (next err)).

(** [req.body.k], [undefined] when the key is missing. *)
Definition prop (k : string) (o : gmap string Value) : Value :=
  default Undefined (o !! k).

(** [POST /users].  [maxAgeDays] is an integer and the remember-me product is
    the exact one; the source multiplies doubles, which is exact as long as
    the product stays within 2^53 in magnitude. *)
Definition CreateUser (req : Request) : M (World DB) unit :=
  try_catch
    (let '(error, message) := validateRequest req in
     if truthy error then call (res_status_json 400 (JsonMessage message))
     else
       let firstName := prop "firstName" (body req) in
       let lastName := prop "lastName" (body req) in
       let email := prop "email" (body req) in
       let password := prop "password" (body req) in
       let rememberMe := prop "rememberMe" (body req) in
       callingUser ← _LoadLoggedInUser;
       w ← get;
       match Create (users w) email firstName lastName password with
       | None => call (res_status_json 409 (JsonMessage (Str "user already exists")))
       | Some (userObject, db') =>
           set_users db' ;;
           match callingUser with
           | None =>
               s ← req_session;
               set_session (Some {| sid := sid s; user_id := Some (id userObject);
                                    cookie := cookie s |}) ;;
               if truthy rememberMe then
                 let sessionDays := Config.maxAgeDays (Config.session Config) in
                 s ← req_session;
                 set_session (Some {| sid := sid s; user_id := user_id s;
                                      cookie := {| maxAge := Some (sessionDays * 24 * 60 * 60 * 1000) |} |})
               else mret tt
           | Some _ => mret tt
           end ;;
           call (res_status_json 201 (JsonUser userObject))
       end)
    (λ err, call (next err)).

(** [GET /user/:id] *)
Definition GetUserById (req : Request) : M (World DB) unit :=
  try_catch
    (callingUser ← _LoadLoggedInUser;
     match callingUser with
     | None => call (res_status_json 401 (JsonMessage (Str "logged in user required")))
     | Some _ =>
         let id := parseInt_opt (params req !! "id") in
         let errmsg := ValidateNumber id in
         if truthy errmsg then call (res_status_json 400 (JsonMessage errmsg))
         else
           w ← get;
           match Load (users w) id with
           | None => call (res_sendStatus 404)
           | Some u => call (res_status_json 200 (JsonUser u))
           end
     end)
    (λ err, call (next err)).

(** [DELETE /user/:id] *)
Definition DeleteUserById (req : Request) : M (World DB) unit :=
  try_catch
    (callingUser ← _LoadLoggedInUser;
     match callingUser with
     | None => call (res_status_json 401 (JsonMessage (Str "logged in user required")))
     | Some _ =>
         let id := parseInt_opt (params req !! "id") in
         let errmsg := ValidateNumber id in
         if truthy errmsg then call (res_status_json 400 (JsonMessage errmsg))
         else
           w ← get;
           match Delete (users w) id with
           | None => call (res_sendStatus 404)
           | Some (u, db') => set_users db' ;; call (res_status_json 200 (JsonUser u))
           end
     end)
    (λ err, call (next err)).

End Routes.

End UserRoutes.

Import UserRoutes.

(** ** One request after another *)

Module Server.

(** What outlives a request. *)
Record State (DB : Type) : Type := {
  sessions : gmap string Session;
  database : DB
}.
Arguments sessions {DB} s.
Arguments database {DB} s.

Section Server.

Context {DB : Type} `{!User.Model DB}.
Variable Config : Config.t.

(** Modelled from the spec: the session middleware that [SessionManager]
    builds with [express-session], a package outside the repository.  "Reads
    the session cookie if present, [SessionStore.Get]; if absent or expired,
    creates a new empty session and a new identifier; attaches session object
    to request-scoped context"; [fresh] is the identifier a new session gets.
    Expiry needs a clock and is left out. *)
Definition attach (cookie : option string) (fresh : string)
    (st : gmap string Session) : Session :=
  match cookie ≫= (λ c, st !! c) with
  | Some s => s
  | None =>
      {| sid := fresh; user_id := None;
         cookie := {| maxAge := Config.maxAge (Config.cookie (Config.session Config)) |} |}
  end.

(** Modelled from the spec: the same middleware on response completion.  "If
    the session was mutated (or [resave] is set), persists it back via
    [SessionStore.Set]"; a destroyed session is not written back. *)
Definition persist (attached : Session) (w : World DB) : gmap string Session :=
  match session w with
  | Some s =>
      if bool_decide (s ≠ attached) || Config.resave (Config.session Config)
      then <[sid s := s]> (store w)
      else store w
  | None => store w
  end.

(** One request: the middleware attaches the session named by the request's
    cookie, the route's handler runs, the middleware persists.  The result is
    the calls the handler made and the state left behind. *)
Definition serve (handler : M (World DB) unit) (cookie : option string)
    (fresh : string) (st : State DB) : list Call * State DB :=
  let s := attach cookie fresh (sessions st) in
  let w := (handler {| session := Some s; store := sessions st;
                       users := database st; calls := [] |}).2 in
  (calls w, {| sessions := persist s w; database := users w |}).

End Server.

End Server.

(** ** A user model in memory *)

Module MemUsers.

(** Modelled from the spec: a collaborator that meets the contract
    "[Load(id)] found/not-found, [Create(email, firstName, lastName,
    password)] ok/conflict, [Delete(id)] found/not-found", standing in for
    [src/models/User.js].  Rows live in a list; [Create] conflicts on an email
    that is already there and numbers a new row one above the highest id. *)
Definition DB : Type := list UserObject.

Definition has_id (n : Number) (u : UserObject) : bool :=
  match n with
  | Int z => bool_decide (id u = z)
  | NaN => false
  end.

Definition next_id (db : DB) : Z := foldr Z.max 0 (id <$> db) + 1.

Definition Load (db : DB) (n : Number) : option UserObject :=
  List.find (has_id n) db.

Definition Create (db : DB) (email firstName lastName password : Value)
    : option (UserObject * DB) :=
  if List.existsb (λ u, bool_decide (User.email u = email)) db then None
  else
    let u := {| id := next_id db; email := email;
                firstName := firstName; lastName := lastName |} in
    Some (u, db ++ [u]).

Definition Delete (db : DB) (n : Number) : option (UserObject * DB) :=
  match List.find (has_id n) db with
  | Some u => Some (u, List.filter (λ v, negb (has_id n v)) db)
  | None => None
  end.

#[global] Instance model : User.Model DB :=
  {| User.Load := Load; User.Create := Create; User.Delete := Delete |}.

End MemUsers.

(** ** Sample data *)

Module Sample.

Definition config (days : Z) : Config.t :=
  {| Config.session :=
       {| Config.name := "sid";
          Config.cookie := {| Config.secure := Bool false; Config.sameSite := Str "lax";
                              Config.httpOnly := Bool true; Config.maxAge := None |};
          Config.resave := false; Config.saveUninitialized := false;
          Config.maxAgeDays := days |};
     Config.sessionStore :=
       {| Config.type := "memorystore";
          Config.memoryStoreConfig := {| Config.checkPeriod := 3600000; Config.noDisposeOnSet := true |};
          Config.redisConfig := {| Config.host := "localhost"; Config.port := 6379 |} |} |}.

(** A validator of signup requests that wants an [email] and a [password]. *)
Definition validateRequest (req : Request) : Value * Value :=
  match body req !! "email", body req !! "password" with
  | Some (Str _), Some (Str _) => (Bool false, Undefined)
  | _, _ => (Bool true, Str "email and password required")
  end.

(** A validator of numbers that turns down [NaN]. *)
Definition ValidateNumber (n : Number) : Value :=
  match n with
  | NaN => Str "not a number"
  | Int _ => Undefined
  end.

Definition alice : UserObject :=
  {| id := 1; email := Str "alice@x.com"; firstName := Str "Alice"; lastName := Undefined |}.

Definition bob : UserObject :=
  {| id := 42; email := Str "bob@x.com"; firstName := Str "Bob"; lastName := Str "B" |}.

Definition anonymous : Session :=
  {| sid := "s1"; user_id := None; cookie := {| maxAge := None |} |}.

Definition bound (uid : Z) : Session :=
  {| sid := "s1"; user_id := Some uid; cookie := {| maxAge := None |} |}.

Definition world (s : Session) (db : MemUsers.DB) : World MemUsers.DB :=
  {| session := Some s; store := {[ sid s := s ]}; users := db; calls := [] |}.

(** A store whose session [s1] is bound to id 42, and users without 42. *)
Definition stale_state : Server.State MemUsers.DB :=
  {| Server.sessions := {[ "s1" := bound 42 ]}; Server.database := [alice] |}.

Definition signup (rememberMe : Value) : Request :=
  {| params := ∅;
     body := {[ "email" := Str "a@x.com"; "firstName" := Str "A";
                "password" := Str "p"; "rememberMe" := rememberMe ]} |}.

(** The row that [signup] creates in an empty database. *)
Definition newcomer : UserObject :=
  {| id := 1; email := Str "a@x.com"; firstName := Str "A"; lastName := Undefined |}.

Definition by_id (i : string) : Request :=
  {| params := {[ "id" := i ]}; body := ∅ |}.

End Sample.

(** ** Vocabulary of the properties *)

Module Vocabulary.

(** The [Create] call that [CreateUser] makes for a request. *)
Definition create_call {DB : Type} `{!User.Model DB} (req : Request) (db : DB)
    : option (UserObject * DB) :=
  Create db (prop "email" (body req)) (prop "firstName" (body req))
    (prop "lastName" (body req)) (prop "password" (body req)).

(** The validator passes the request: the [error] it returns is falsy. *)
Definition valid (validateRequest : Request → Value * Value) (req : Request) : Prop :=
  truthy (validateRequest req).1 = false.

#[global] Instance valid_dec validateRequest req : Decision (valid validateRequest req).
Proof. unfold valid. apply _. Defined.

(** The request's [id] path parameter, parsed. *)
Definition parsed_id (req : Request) : Number :=
  parseInt_opt (params req !! "id").

(** A call that answers with status [code]. *)
Definition answers (code : Z) (c : Call) : bool :=
  match c with
  | res_status_json k _ => bool_decide (k = code)
  | res_sendStatus k => bool_decide (k = code)
  | _ => false
  end.

(** The answer of the two by-id routes to an anonymous session. *)
Definition unauthorized : Call :=
  res_status_json 401 (JsonMessage (Str "logged in user required")).

(** The world [w] with the users [db]. *)
Definition with_users {DB : Type} (w : World DB) (db : DB) : World DB :=
  {| session := session w; store := store w; users := db; calls := calls w |}.

(** A decimal digit. *)
Definition is_digit (c : ascii) : bool :=
  let n := Z.of_nat (nat_of_ascii c) in (48 <=? n) && (n <=? 57).

Fixpoint all_digits (d : string) : bool :=
  match d with
  | EmptyString => true
  | String c d' => is_digit c && all_digits d'
  end.

Definition starts_with (p : ascii → bool) (s : string) : bool :=
  match s with
  | String c _ => p c
  | EmptyString => false
  end.

Definition is_x (c : ascii) : bool := Ascii.eqb c "x" || Ascii.eqb c "X".

(** [d] is a run of one or more decimal digits and [rest] does not go on with
    a digit.  ([0] followed by [x] is the start of a hexadecimal literal and
    is left out.) *)
Definition unsigned_literal (d rest : string) : bool :=
  negb (String.eqb d "") && all_digits d
  && negb (starts_with is_digit rest)
  && negb (String.eqb d "0" && starts_with is_x rest).

(** The string [d +:+ rest] starts with the integer [d]: an unsigned literal
    with or without a sign in front. *)
Definition leading_integer (d rest : string) : bool :=
  unsigned_literal (read_sign d).2 rest.

End Vocabulary.

Import Vocabulary.

(** ** The remaining route of [UserRoutes] that answers at once *)

Module OtherRoutes.

Section OtherRoutes.

Context {DB : Type}.

(** [GET /users] *)
Definition getUsers : M (World DB) unit :=
  try_catch
    (call (res_status_json 200 (JsonMessage (Str "get /users route"))))
    (λ err, call (next err)).

End OtherRoutes.

End OtherRoutes.

Import OtherRoutes.

(** ** Outcomes of a handler *)

Module Outcomes.

(** A call that sends a response. *)
Definition is_status (c : Call) : bool :=
  match c with
  | res_status_json _ _ | res_sendStatus _ => true
  | _ => false
  end.

(** What a handler may do to [res] and [next] in one run: send one response,
    or call [next] once, with or without clearing the cookie first. *)
Definition one_outcome (cs : list Call) : Prop :=
  (∃ c, cs = [c] ∧ is_status c = true)
  ∨ (∃ e, cs = [next e])
  ∨ (∃ e, cs = [res_clearCookie; next e]).

(** The error of [req_session]. *)
Definition no_session_error : Error :=
  mkError "TypeError" "req.session is undefined".

(** The attached session is bound to an id that the user model cannot load. *)
Definition stale {DB : Type} `{!User.Model DB} (w : World DB) : Prop :=
  ∃ s uid, session w = Some s ∧ user_id s = Some uid
           ∧ Load (users w) (Int uid) = None.

(** A handler [h] run in [w] returns normally with one outcome. *)
Definition settles {DB : Type} (h : M (World DB) unit) (w : World DB) : Prop :=
  ∃ w' cs, h w = (Return tt, w') ∧ calls w' = calls w ++ cs ∧ one_outcome cs.

Fixpoint all_white (s : string) : bool :=
  match s with
  | EmptyString => true
  | String c s' => is_white c && all_white s'
  end.

(** The magnitude up to which every integer is a double: up to it the
    exact integers of [Number] are the numbers the source computes. *)
Definition exact_as_double (z : Z) : Prop := Z.abs z ≤ 2 ^ 53.

(** What may follow the decimal notation of [z] for [parseInt] to read [z]:
    no further digit, and after a lone [0] no [x] or [X], which would make a
    hexadecimal prefix. *)
Definition ends_integer (z : Z) (rest : string) : Prop :=
  starts_with is_digit rest = false
  ∧ (z = 0 → starts_with is_x rest = false).

End Outcomes.

Import Outcomes.

(** ** More sample data *)

Module HexSample.

Definition carol : UserObject :=
  {| id := 31; email := Str "carol@x.com"; firstName := Str "Carol"; lastName := Undefined |}.

(** Alice is logged in; the users are Alice (1) and Carol (31). *)
Definition world : World MemUsers.DB :=
  Sample.world (Sample.bound 1) [Sample.alice; carol].

End HexSample.

(** * Properties *)

(** ** [parseInt] *)

Example parseInt_42abc : parseInt "42abc" = Int 42.
Proof. reflexivity. Qed.

Example parseInt_signed : parseInt "  -17.5" = Int (-17).
Proof. reflexivity. Qed.

Example parseInt_hex : parseInt "0x1f" = Int 31.
Proof. reflexivity. Qed.

Example parseInt_letters : parseInt "abc" = NaN.
Proof. reflexivity. Qed.

Example parseInt_empty : parseInt "" = NaN.
Proof. reflexivity. Qed.

Example parseInt_undefined : parseInt_opt None = NaN.
Proof. reflexivity. Qed.

Example leading_integer_42abc : leading_integer "42" "abc" = true.
Proof. reflexivity. Qed.

Example leading_integer_signed : leading_integer "-7" " days" = true.
Proof. reflexivity. Qed.

Example leading_integer_cut_short : leading_integer "4" "2abc" = false.
Proof. reflexivity. Qed.

Example leading_integer_hex : leading_integer "0" "x1f" = false.
Proof. reflexivity. Qed.

Example leading_integer_none : leading_integer "" "abc" = false.
Proof. reflexivity. Qed.

Lemma digit_facts c :
  is_digit c = true →
  is_white c = false ∧ c ≠ "-"%char ∧ c ≠ "+"%char ∧ is_x c = false
  ∧ ∃ v, digit_of c = Some v ∧ 0 <= v < 10.
Proof.
  destruct c as [[] [] [] [] [] [] [] []]; vm_compute; intros Hd;
    try discriminate Hd; (repeat split; try discriminate; eexists; repeat split; discriminate).
Qed.

Lemma nondigit_facts c :
  is_digit c = false →
  match digit_of c with Some v => 10 <= v | None => True end.
Proof.
  destruct c as [[] [] [] [] [] [] [] []]; vm_compute; intros Hd;
    try discriminate Hd; try exact I; discriminate.
Qed.

Lemma digits_prefix d rest acc :
  all_digits d = true → starts_with is_digit rest = false →
  digits 10 (d +:+ rest) acc = digits 10 d acc.
Proof.
  revert acc. induction d as [|c d IH]; intros acc Hd Hr.
  - change ("" +:+ rest) with rest. destruct rest as [|c r]; [done|].
    cbn in Hr. pose proof (nondigit_facts c Hr) as Hc. cbn.
    destruct (digit_of c) as [v|]; [|done].
    destruct (Z.ltb_spec v 10); [lia|done].
  - cbn in Hd. apply andb_true_iff in Hd as [Hc Hd].
    destruct (digit_facts c Hc) as (_ & _ & _ & _ & v & Hv & Hlt).
    change (String c d +:+ rest) with (String c (d +:+ rest)).
    cbn. rewrite Hv. destruct (Z.ltb_spec v 10); [|lia]. by apply IH.
Qed.

Lemma read_radix_decimal d rest :
  d ≠ "" → all_digits d = true →
  (String.eqb d "0" && starts_with is_x rest) = false →
  read_radix (d +:+ rest) = (10, d +:+ rest) ∧ read_radix d = (10, d).
Proof.
  intros Hne Hd Hx. destruct d as [|c d]; [done|].
  cbn in Hd. apply andb_true_iff in Hd as [Hc Hd].
  change (String c d +:+ rest) with (String c (d +:+ rest)).
  destruct d as [|c' d].
  - change ("" +:+ rest) with rest. destruct rest as [|x r].
    + split; unfold read_radix; destruct c as [[] [] [] [] [] [] [] []]; done.
    + cbn in Hx.
      destruct (Ascii.eqb_spec c "0") as [->|Hc0].
      * cbn in Hx. unfold is_x in Hx. apply orb_false_iff in Hx as [H1 H2].
        apply Ascii.eqb_neq in H1, H2.
        split; [|done].
        unfold read_radix.
        destruct x as [[] [] [] [] [] [] [] []]; done.
      * split; unfold read_radix; destruct c as [[] [] [] [] [] [] [] []]; done.
  - cbn in Hd. apply andb_true_iff in Hd as [Hc' Hd].
    destruct (digit_facts c' Hc') as (_ & _ & _ & Hx' & _).
    unfold is_x in Hx'. apply orb_false_iff in Hx' as [H1 H2].
    apply Ascii.eqb_neq in H1, H2.
    change (String c' d +:+ rest) with (String c' (d +:+ rest)).
    split; unfold read_radix;
      destruct c as [[] [] [] [] [] [] [] []]; try done;
      destruct c' as [[] [] [] [] [] [] [] []]; done.
Qed.

Lemma parseInt_unsigned d rest :
  unsigned_literal d rest = true →
  ∀ sign,
  match digits (read_radix (d +:+ rest)).1 (read_radix (d +:+ rest)).2 None with
  | None => NaN | Some m => Int (sign * m) end
  = match digits (read_radix d).1 (read_radix d).2 None with
    | None => NaN | Some m => Int (sign * m) end.
Proof.
  unfold unsigned_literal. intros H sign.
  apply andb_true_iff in H as [H Hx]. apply andb_true_iff in H as [H Hr].
  apply andb_true_iff in H as [Hne Hd].
  apply negb_true_iff in Hx, Hr, Hne. apply String.eqb_neq in Hne.
  destruct (read_radix_decimal d rest Hne Hd Hx) as [-> ->]. cbn [fst snd].
  by rewrite digits_prefix.
Qed.

Lemma parseInt_leading_integer d rest :
  leading_integer d rest = true →
  parseInt (d +:+ rest) = parseInt d.
Proof.
  unfold leading_integer. intros H.
  assert (Hs : skip_white (d +:+ rest) = d +:+ rest ∧ skip_white d = d
               ∧ read_sign (d +:+ rest) = ((read_sign d).1, (read_sign d).2 +:+ rest)).
  { destruct d as [|c d].
    - cbn in H. done.
    - change (String c d +:+ rest) with (String c (d +:+ rest)).
      destruct (is_digit c) eqn:Hc.
      + destruct (digit_facts c Hc) as (Hw & Hm & Hp & _).
        cbn. rewrite Hw. repeat split.
        unfold read_sign. destruct c as [[] [] [] [] [] [] [] []]; done.
      + assert (c = "-"%char ∨ c = "+"%char) as [-> | ->].
        { unfold unsigned_literal in H.
          destruct c as [[] [] [] [] [] [] [] []]; try (by left); try (by right);
            cbn in H, Hc; rewrite ?Hc in H; cbn in H;
            rewrite ?andb_false_r in H; done. }
        all: done. }
  destruct Hs as (Hs1 & Hs2 & Hs3).
  unfold parseInt. rewrite Hs1, Hs2, Hs3.
  destruct (read_sign d) as [sg d'] eqn:Hsg. cbn [fst snd] in *.
  pose proof (parseInt_unsigned d' rest H sg) as Hp.
  destruct (read_radix (d' +:+ rest)) as [R1 s1].
  destruct (read_radix d') as [R2 s2]. exact Hp.
Qed.

(** ** The monad *)

Ltac eff :=
  repeat (unfold mbind, M_bind, bind, mret, M_ret, ret, get, modify, throw,
          try_catch, call, set_session, set_users, req_session,
          DeleteSession in *; cbn [fst snd] in *).

Section Resolver.

Context {DB : Type} `{!User.Model DB}.
Implicit Types (w : World DB) (s : Session).

Lemma resolver_anonymous w s :
  session w = Some s → user_id s = None →
  _LoadLoggedInUser w = (Return None, w).
Proof.
  intros Hs Hu. unfold _LoadLoggedInUser. eff. rewrite Hs. cbn. by rewrite Hu.
Qed.

Lemma resolver_found w s uid u :
  session w = Some s → user_id s = Some uid →
  Load (users w) (Int uid) = Some u →
  _LoadLoggedInUser w = (Return (Some u), w).
Proof.
  intros Hs Hu Hl. unfold _LoadLoggedInUser. eff. rewrite Hs. cbn.
  rewrite Hu. by rewrite Hl.
Qed.

Lemma resolver_stale w s uid :
  session w = Some s → user_id s = Some uid →
  Load (users w) (Int uid) = None →
  _LoadLoggedInUser w = (Throw stale_error, destroyed w).
Proof.
  intros Hs Hu Hl. unfold _LoadLoggedInUser. eff. rewrite Hs. cbn.
  rewrite Hu. by rewrite Hl.
Qed.

End Resolver.

(** ** The resolver and [GET /user] *)

Section ResolverClaims.

Context {DB : Type} `{!User.Model DB}.
Implicit Types (w : World DB) (s : Session).

(** C1.  A session bound to a [user_id] that the user model cannot load: the
    resolver destroys the session (it is detached from the request and
    removed from the store, and the response cookie is cleared; nothing else
    changes) and throws.  The outcome is a thrown error, never the [null] the
    resolver returns for an anonymous session. *)
Theorem LoadLoggedInUser_stale_destroys_and_throws w s uid :
  session w = Some s →
  user_id s = Some uid →
  Load (users w) (Int uid) = None →
  ∃ w', _LoadLoggedInUser w = (Throw stale_error, w')
        ∧ session w' = None
        ∧ store w' = delete (sid s) (store w)
        ∧ store w' !! sid s = None
        ∧ calls w' = calls w ++ [res_clearCookie]
        ∧ users w' = users w
        ∧ (_LoadLoggedInUser w).1 ≠ Return None.
Proof.
  intros Hs Hu Hl. exists (destroyed w).
  rewrite (resolver_stale w s uid Hs Hu Hl). unfold destroyed; cbn.
  rewrite Hs. repeat split; try done. apply lookup_delete_eq.
Qed.

(** C2.  A session with no bound [user_id]: the resolver returns [null] (no
    user), throws nothing and changes nothing: no session is destroyed and
    no call is made on [res] or [next]. *)
Theorem LoadLoggedInUser_anonymous_returns_null w s :
  session w = Some s →
  user_id s = None →
  _LoadLoggedInUser w = (Return None, w).
Proof. apply resolver_anonymous. Qed.

(** C8.  [GET /user] answers by what the resolver returns: a user gives
    status 200 with that user's [UserObject] as JSON; [null] (anonymous)
    gives status 202 with a [message] object.  Nothing else is called. *)
Theorem GetUser_200_or_202 w :
  (∀ u w', _LoadLoggedInUser w = (Return (Some u), w') →
     GetUser w = (Return tt, after_calls w' [res_status_json 200 (JsonUser u)]))
  ∧ (∀ w', _LoadLoggedInUser w = (Return None, w') →
     GetUser w = (Return tt,
       after_calls w' [res_status_json 202 (JsonMessage (Str "user not logged in"))])).
Proof.
  split; intros; unfold GetUser, try_catch, mbind, M_bind, bind;
    rewrite H0; reflexivity.
Qed.

End ResolverClaims.

Lemma LoadLoggedInUser_stale_witness :
  ∃ w', _LoadLoggedInUser (Sample.world (Sample.bound 42) []) = (Throw stale_error, w')
        ∧ session w' = None
        ∧ store w' = delete "s1" {[ "s1" := Sample.bound 42 ]}
        ∧ store w' !! "s1" = None
        ∧ calls w' = [res_clearCookie]
        ∧ users w' = []
        ∧ (_LoadLoggedInUser (Sample.world (Sample.bound 42) [])).1 ≠ Return None.
Proof.
  apply (LoadLoggedInUser_stale_destroys_and_throws
           (Sample.world (Sample.bound 42) []) (Sample.bound 42) 42);
    reflexivity.
Defined.

Lemma LoadLoggedInUser_anonymous_witness :
  _LoadLoggedInUser (Sample.world Sample.anonymous [Sample.alice])
  = (Return None, Sample.world Sample.anonymous [Sample.alice]).
Proof.
  apply (LoadLoggedInUser_anonymous_returns_null
           (Sample.world Sample.anonymous [Sample.alice]) Sample.anonymous);
    reflexivity.
Defined.

Lemma GetUser_200_or_202_witness :
  GetUser (Sample.world (Sample.bound 1) [Sample.alice])
  = (Return tt, after_calls (Sample.world (Sample.bound 1) [Sample.alice])
                  [res_status_json 200 (JsonUser Sample.alice)])
  ∧ GetUser (Sample.world Sample.anonymous [Sample.alice])
    = (Return tt, after_calls (Sample.world Sample.anonymous [Sample.alice])
                    [res_status_json 202 (JsonMessage (Str "user not logged in"))]).
Proof.
  split.
  - apply (proj1 (GetUser_200_or_202 (Sample.world (Sample.bound 1) [Sample.alice]))).
    reflexivity.
  - apply (proj2 (GetUser_200_or_202 (Sample.world Sample.anonymous [Sample.alice]))).
    reflexivity.
Defined.

(** ** A stale session over two requests *)

Section StaleThenAnonymous.

Context {DB : Type} `{!User.Model DB}.
Variable Config : Config.t.

(** A request whose cookie names no stored session gets a new session, and
    that session is anonymous. *)
Lemma attach_unknown_cookie (c fresh : string) (st : gmap string Session) :
  st !! c = None →
  user_id (Server.attach Config (Some c) fresh st) = None.
Proof. intros Hc. unfold Server.attach. cbn. by rewrite Hc. Qed.

(** C3.  The store holds under cookie [c] a session bound to a [user_id]
    that the user model cannot load.  [GET /user] with that cookie: the
    handler clears the cookie and passes the resolver's error to [next], once,
    and answers with no status; the session is gone from the store and the
    users are as before.  The next [GET /user] with the same cookie (and the
    same users) resolves a session with no [user_id], for which the resolver
    returns [null], and is answered 202 "user not logged in". *)
Theorem stale_session_then_anonymous (st : Server.State DB) (c : string)
    (s : Session) (uid : Z) (fresh1 fresh2 : string) :
  Server.sessions st !! c = Some s →
  sid s = c →
  user_id s = Some uid →
  Load (Server.database st) (Int uid) = None →
  let r1 := Server.serve Config GetUser (Some c) fresh1 st in
  let s2 := Server.attach Config (Some c) fresh2 (Server.sessions r1.2) in
  let w2 := {| session := Some s2; store := Server.sessions r1.2;
               users := Server.database r1.2; calls := [] |} in
  r1.1 = [res_clearCookie; next stale_error]
  ∧ Server.sessions r1.2 = delete c (Server.sessions st)
  ∧ Server.sessions r1.2 !! c = None
  ∧ Server.database r1.2 = Server.database st
  ∧ user_id s2 = None
  ∧ _LoadLoggedInUser w2 = (Return None, w2)
  ∧ (Server.serve Config GetUser (Some c) fresh2 r1.2).1
    = [res_status_json 202 (JsonMessage (Str "user not logged in"))].
Proof.
  intros Hc Hsid Hu Hl.
  assert (Hat : Server.attach Config (Some c) fresh1 (Server.sessions st) = s).
  { unfold Server.attach. cbn. by rewrite Hc. }
  assert (H1 : Server.serve Config GetUser (Some c) fresh1 st
               = ([res_clearCookie; next stale_error],
                  {| Server.sessions := delete c (Server.sessions st);
                     Server.database := Server.database st |})).
  { unfold Server.serve. rewrite Hat.
    unfold GetUser, try_catch, mbind, M_bind, bind.
    rewrite (resolver_stale _ s uid); [|done..].
    cbn. by rewrite Hsid. }
  cbn zeta. rewrite H1. cbn [fst snd Server.sessions Server.database].
  assert (Hgone : delete c (Server.sessions st) !! c = None)
    by apply lookup_delete_eq.
  pose proof (attach_unknown_cookie c fresh2 _ Hgone) as Hanon.
  repeat split; try done.
  - by eapply resolver_anonymous.
  - unfold Server.serve. cbn [fst snd Server.sessions Server.database].
    unfold GetUser, try_catch, mbind, M_bind, bind.
    by erewrite resolver_anonymous.
Qed.

End StaleThenAnonymous.

Lemma stale_session_then_anonymous_witness :
  (Server.serve (Sample.config 7) GetUser (Some "s1") "s2" Sample.stale_state).1
  = [res_clearCookie; next stale_error]
  ∧ Server.sessions
      (Server.serve (Sample.config 7) GetUser (Some "s1") "s2" Sample.stale_state).2
    !! "s1" = None
  ∧ (Server.serve (Sample.config 7) GetUser (Some "s1") "s3"
       (Server.serve (Sample.config 7) GetUser (Some "s1") "s2" Sample.stale_state).2).1
    = [res_status_json 202 (JsonMessage (Str "user not logged in"))].
Proof.
  destruct (stale_session_then_anonymous (Sample.config 7) Sample.stale_state
              "s1" (Sample.bound 42) 42 "s2" "s3")
    as (H1 & _ & H3 & _ & _ & _ & H7); [reflexivity..|].
  auto.
Defined.

(** ** [POST /users] *)

Section CreateUserFacts.

Context {DB : Type} `{!User.Model DB}.
Variable Config : Config.t.
Variable validateRequest : Request → Value * Value.
Implicit Types (w : World DB) (s : Session) (req : Request).

Lemma CreateUser_conflict req w cu :
  valid validateRequest req →
  _LoadLoggedInUser w = (Return cu, w) →
  create_call req (users w) = None →
  CreateUser Config validateRequest req w
  = (Return tt, after_calls w
       [res_status_json 409 (JsonMessage (Str "user already exists"))]).
Proof.
  unfold valid, create_call. intros Hv Hr Hc. unfold CreateUser.
  destruct (validateRequest req) as [error message]. cbn in Hv. rewrite Hv.
  unfold try_catch at 1. unfold mbind at 1, M_bind, bind at 1.
  rewrite Hr. unfold mbind, bind, get. by rewrite Hc.
Qed.

Lemma CreateUser_signup req w s u db' :
  valid validateRequest req →
  session w = Some s → user_id s = None →
  create_call req (users w) = Some (u, db') →
  CreateUser Config validateRequest req w
  = (Return tt,
     {| session :=
          Some {| sid := sid s; user_id := Some (id u);
                  cookie :=
                    if truthy (prop "rememberMe" (body req))
                    then {| maxAge := Some (Config.maxAgeDays (Config.session Config)
                                            * 24 * 60 * 60 * 1000) |}
                    else cookie s |};
        store := store w; users := db';
        calls := calls w ++ [res_status_json 201 (JsonUser u)] |}).
Proof.
  unfold valid, create_call. intros Hv Hs Hu Hc. unfold CreateUser.
  destruct (validateRequest req) as [error message]. cbn in Hv. rewrite Hv.
  unfold try_catch at 1. unfold mbind at 1, M_bind, bind at 1.
  rewrite (resolver_anonymous w s Hs Hu). unfold mbind, bind, get.
  rewrite Hc. eff. rewrite Hs.
  by destruct (truthy (prop "rememberMe" (body req))).
Qed.

Lemma CreateUser_by_logged_in req w cu u db' :
  valid validateRequest req →
  _LoadLoggedInUser w = (Return (Some cu), w) →
  create_call req (users w) = Some (u, db') →
  CreateUser Config validateRequest req w
  = (Return tt,
     {| session := session w; store := store w; users := db';
        calls := calls w ++ [res_status_json 201 (JsonUser u)] |}).
Proof.
  unfold valid, create_call. intros Hv Hr Hc. unfold CreateUser.
  destruct (validateRequest req) as [error message]. cbn in Hv. rewrite Hv.
  unfold try_catch at 1. unfold mbind at 1, M_bind, bind at 1.
  rewrite Hr. unfold mbind, bind, get. rewrite Hc. by eff.
Qed.

Lemma CreateUser_invalid req w :
  ¬ valid validateRequest req →
  CreateUser Config validateRequest req w
  = (Return tt, after_calls w
       [res_status_json 400 (JsonMessage (validateRequest req).2)]).
Proof.
  unfold valid. intros Hv. unfold CreateUser.
  destruct (validateRequest req) as [error message]. cbn in *.
  destruct (truthy error); [|done]. by eff.
Qed.

End CreateUserFacts.

Section CreateUserClaims.

Context {DB : Type} `{!User.Model DB}.
Variable Config : Config.t.
Variable validateRequest : Request → Value * Value.
Implicit Types (w : World DB) (s : Session) (req : Request).


(** C5.  [POST /users] on a session that resolves to a logged-in user
    leaves the session attached to the request as it was, [user_id] and
    cookie [maxAge] included, and leaves the session store as it was,
    whatever the answer (400, 409 or 201). *)
Theorem CreateUser_logged_in_keeps_session req w s uid cu :
  session w = Some s →
  user_id s = Some uid →
  Load (users w) (Int uid) = Some cu →
  let w' := (CreateUser Config validateRequest req w).2 in
  session w' = Some s ∧ store w' = store w.
Proof.
  intros Hs Hu Hl. cbn zeta.
  pose proof (resolver_found w s uid cu Hs Hu Hl) as Hr.
  destruct (bool_decide_reflect (valid validateRequest req)) as [Hv|Hv].
  - destruct (create_call req (users w)) as [[u db']|] eqn:Hc.
    + by rewrite (CreateUser_by_logged_in Config validateRequest req w cu u db').
    + by rewrite (CreateUser_conflict Config validateRequest req w (Some cu)).
  - by rewrite (CreateUser_invalid Config validateRequest req w Hv).
Qed.

(** C6.  A valid signup for which the user model creates the account
    ([Create] returns the new row), on an anonymous session: the answer is
    201 with the new row and the session is bound to the new id.  When the
    model can load that row and turns the same [Create] down as a duplicate,
    the same signup again on the session just bound is answered 409, and the
    session, the store and the users are as the first signup left them. *)
Theorem signup_201_then_409 req w s u db' :
  valid validateRequest req →
  session w = Some s →
  user_id s = None →
  create_call req (users w) = Some (u, db') →
  is_Some (Load db' (Int (id u))) →
  create_call req db' = None →
  let w1 := (CreateUser Config validateRequest req w).2 in
  let w2 := (CreateUser Config validateRequest req w1).2 in
  calls w1 = calls w ++ [res_status_json 201 (JsonUser u)]
  ∧ (∃ s1, session w1 = Some s1 ∧ sid s1 = sid s ∧ user_id s1 = Some (id u))
  ∧ users w1 = db'
  ∧ calls w2 = calls w1 ++ [res_status_json 409 (JsonMessage (Str "user already exists"))]
  ∧ session w2 = session w1
  ∧ store w2 = store w1
  ∧ users w2 = users w1.
Proof.
  intros Hv Hs Hu Hc [u' Hl] Hdup. cbn zeta.
  rewrite (CreateUser_signup Config validateRequest req w s u db' Hv Hs Hu Hc).
  cbn [snd].
  erewrite (CreateUser_conflict Config validateRequest req _ (Some u')); [| done | | done].
  - cbn. repeat split; eauto.
  - by eapply resolver_found.
Qed.

End CreateUserClaims.


Lemma CreateUser_logged_in_keeps_session_witness :
  session (CreateUser (Sample.config 7) Sample.validateRequest
             (Sample.signup (Bool true))
             (Sample.world (Sample.bound 1) [Sample.alice])).2
  = Some (Sample.bound 1).
Proof.
  apply (CreateUser_logged_in_keeps_session (Sample.config 7)
           Sample.validateRequest (Sample.signup (Bool true))
           (Sample.world (Sample.bound 1) [Sample.alice])
           (Sample.bound 1) 1 Sample.alice
           ltac:(reflexivity) ltac:(reflexivity) ltac:(reflexivity)).
Defined.

Lemma signup_201_then_409_witness :
  calls (CreateUser (Sample.config 7) Sample.validateRequest
           (Sample.signup (Bool false)) (Sample.world Sample.anonymous [])).2
  = [res_status_json 201 (JsonUser Sample.newcomer)]
  ∧ calls (CreateUser (Sample.config 7) Sample.validateRequest
             (Sample.signup (Bool false))
             (CreateUser (Sample.config 7) Sample.validateRequest
                (Sample.signup (Bool false)) (Sample.world Sample.anonymous [])).2).2
    = [res_status_json 201 (JsonUser Sample.newcomer);
       res_status_json 409 (JsonMessage (Str "user already exists"))]
  ∧ session (CreateUser (Sample.config 7) Sample.validateRequest
               (Sample.signup (Bool false))
               (CreateUser (Sample.config 7) Sample.validateRequest
                  (Sample.signup (Bool false)) (Sample.world Sample.anonymous [])).2).2
    = Some {| sid := "s1"; user_id := Some 1; cookie := {| maxAge := None |} |}.
Proof.
  destruct (signup_201_then_409 (Sample.config 7) Sample.validateRequest
              (Sample.signup (Bool false)) (Sample.world Sample.anonymous [])
              Sample.anonymous Sample.newcomer [Sample.newcomer])
    as (H1 & _ & _ & H4 & H5 & _);
    [reflexivity | reflexivity | reflexivity | reflexivity
    | exists Sample.newcomer; reflexivity | reflexivity | ].
  cbn zeta in *. split; [exact H1|]. split.
  - rewrite H4, H1. reflexivity.
  - rewrite H5. reflexivity.
Defined.

(** ** [GET /user/:id] and [DELETE /user/:id] *)

Section ByIdFacts.

Context {DB : Type} `{!User.Model DB}.
Variable ValidateNumber : Number → Value.
Implicit Types (w : World DB) (s : Session) (req : Request).

Lemma GetUserById_anonymous req w s :
  session w = Some s → user_id s = None →
  GetUserById ValidateNumber req w = (Return tt, after_calls w [unauthorized]).
Proof.
  intros Hs Hu. unfold GetUserById, try_catch, mbind, M_bind, bind.
  by rewrite (resolver_anonymous w s Hs Hu).
Qed.

Lemma DeleteUserById_anonymous req w s :
  session w = Some s → user_id s = None →
  DeleteUserById ValidateNumber req w = (Return tt, after_calls w [unauthorized]).
Proof.
  intros Hs Hu. unfold DeleteUserById, try_catch, mbind, M_bind, bind.
  by rewrite (resolver_anonymous w s Hs Hu).
Qed.

Lemma GetUserById_stale req w s uid :
  session w = Some s → user_id s = Some uid →
  Load (users w) (Int uid) = None →
  GetUserById ValidateNumber req w
  = (Return tt, after_calls (destroyed w) [next stale_error]).
Proof.
  intros Hs Hu Hl. unfold GetUserById, try_catch, mbind, M_bind, bind.
  by rewrite (resolver_stale w s uid Hs Hu Hl).
Qed.

Lemma DeleteUserById_stale req w s uid :
  session w = Some s → user_id s = Some uid →
  Load (users w) (Int uid) = None →
  DeleteUserById ValidateNumber req w
  = (Return tt, after_calls (destroyed w) [next stale_error]).
Proof.
  intros Hs Hu Hl. unfold DeleteUserById, try_catch, mbind, M_bind, bind.
  by rewrite (resolver_stale w s uid Hs Hu Hl).
Qed.

Lemma GetUserById_logged_in req w cu :
  _LoadLoggedInUser w = (Return (Some cu), w) →
  GetUserById ValidateNumber req w
  = (Return tt,
     if truthy (ValidateNumber (parsed_id req))
     then after_calls w [res_status_json 400 (JsonMessage (ValidateNumber (parsed_id req)))]
     else match Load (users w) (parsed_id req) with
          | None => after_calls w [res_sendStatus 404]
          | Some u => after_calls w [res_status_json 200 (JsonUser u)]
          end).
Proof.
  intros Hr. unfold GetUserById, try_catch, parsed_id.
  unfold mbind at 1, M_bind, bind at 1. rewrite Hr.
  destruct (truthy _); [done|]. unfold mbind, bind, get.
  by destruct (Load _ _).
Qed.

Lemma DeleteUserById_logged_in req w cu :
  _LoadLoggedInUser w = (Return (Some cu), w) →
  DeleteUserById ValidateNumber req w
  = (Return tt,
     if truthy (ValidateNumber (parsed_id req))
     then after_calls w [res_status_json 400 (JsonMessage (ValidateNumber (parsed_id req)))]
     else match Delete (users w) (parsed_id req) with
          | None => after_calls w [res_sendStatus 404]
          | Some (u, db') =>
              after_calls (with_users w db') [res_status_json 200 (JsonUser u)]
          end).
Proof.
  intros Hr. unfold DeleteUserById, try_catch, parsed_id.
  unfold mbind at 1, M_bind, bind at 1. rewrite Hr.
  destruct (truthy _); [done|]. unfold mbind, bind, get.
  by destruct (Delete _ _) as [[u db']|].
Qed.

End ByIdFacts.

Section ByIdClaims.

Context {DB : Type} `{!User.Model DB}.
Variable ValidateNumber : Number → Value.
Implicit Types (w : World DB) (s : Session) (req : Request).

(** C7, amended.  [GET /user/:id] and [DELETE /user/:id], by the session
    attached to the request.  An anonymous session is answered 401.  A
    session whose user resolves: 400 with the validator's message when
    [ValidateNumber] turns down the parsed [id]; else 404 when the user model
    has no such id; else 200 with the row the model returns ([DELETE] also
    leaves the database the model returns).  A stale session gets no status:
    the resolver destroys it and the handler passes the error to [next]. *)
Theorem by_id_responses req w s :
  session w = Some s →
  let get := GetUserById ValidateNumber req w in
  let del := DeleteUserById ValidateNumber req w in
  let id := parsed_id req in
  (user_id s = None →
     get = (Return tt, after_calls w [unauthorized])
     ∧ del = (Return tt, after_calls w [unauthorized]))
  ∧ (∀ uid, user_id s = Some uid → Load (users w) (Int uid) = None →
     get = (Return tt, after_calls (destroyed w) [next stale_error])
     ∧ del = (Return tt, after_calls (destroyed w) [next stale_error]))
  ∧ (∀ uid cu, user_id s = Some uid → Load (users w) (Int uid) = Some cu →
     (truthy (ValidateNumber id) = true →
        get = (Return tt, after_calls w [res_status_json 400 (JsonMessage (ValidateNumber id))])
        ∧ del = (Return tt, after_calls w [res_status_json 400 (JsonMessage (ValidateNumber id))]))
     ∧ (truthy (ValidateNumber id) = false →
        (Load (users w) id = None →
           get = (Return tt, after_calls w [res_sendStatus 404]))
        ∧ (∀ u, Load (users w) id = Some u →
           get = (Return tt, after_calls w [res_status_json 200 (JsonUser u)]))
        ∧ (Delete (users w) id = None →
           del = (Return tt, after_calls w [res_sendStatus 404]))
        ∧ (∀ u db', Delete (users w) id = Some (u, db') →
           del = (Return tt, after_calls (with_users w db')
                               [res_status_json 200 (JsonUser u)])))).
Proof.
  intros Hs. cbn zeta. split; [|split].
  - intros Hu. split.
    + by apply GetUserById_anonymous with s.
    + by apply DeleteUserById_anonymous with s.
  - intros uid Hu Hl. split.
    + by apply GetUserById_stale with s uid.
    + by apply DeleteUserById_stale with s uid.
  - intros uid cu Hu Hl.
    pose proof (resolver_found w s uid cu Hs Hu Hl) as Hr.
    rewrite (GetUserById_logged_in ValidateNumber req w cu Hr).
    rewrite (DeleteUserById_logged_in ValidateNumber req w cu Hr).
    split; intros ->; [done|].
    repeat split.
    + by intros ->.
    + by intros u ->.
    + by intros ->.
    + by intros u db' ->.
Qed.

End ByIdClaims.

(** C7, as stated, fails on a stale session.  The session is bound to id 42,
    which the users do not have, and the request asks for user 1, who
    exists.  No identity resolves, and yet neither route answers 401, nor
    with any other status: each clears the cookie and calls [next] with the
    resolver's error. *)
Lemma by_id_stale_session_gets_no_status :
  (∀ u, (_LoadLoggedInUser (Sample.world (Sample.bound 42) [Sample.alice])).1
        ≠ Return (Some u))
  ∧ truthy (Sample.ValidateNumber (parsed_id (Sample.by_id "1"))) = false
  ∧ Load [Sample.alice] (parsed_id (Sample.by_id "1")) = Some Sample.alice
  ∧ calls (GetUserById Sample.ValidateNumber (Sample.by_id "1")
             (Sample.world (Sample.bound 42) [Sample.alice])).2
    = [res_clearCookie; next stale_error]
  ∧ calls (DeleteUserById Sample.ValidateNumber (Sample.by_id "1")
             (Sample.world (Sample.bound 42) [Sample.alice])).2
    = [res_clearCookie; next stale_error]
  ∧ (∀ code, existsb (answers code)
               (calls (GetUserById Sample.ValidateNumber (Sample.by_id "1")
                         (Sample.world (Sample.bound 42) [Sample.alice])).2) = false)
  ∧ (∀ code, existsb (answers code)
               (calls (DeleteUserById Sample.ValidateNumber (Sample.by_id "1")
                         (Sample.world (Sample.bound 42) [Sample.alice])).2) = false).
Proof.
  repeat split; try reflexivity. intros u. discriminate.
Qed.

Lemma by_id_responses_witness :
  GetUserById Sample.ValidateNumber (Sample.by_id "42")
    (Sample.world Sample.anonymous [Sample.alice; Sample.bob])
  = (Return tt, after_calls (Sample.world Sample.anonymous [Sample.alice; Sample.bob])
                  [unauthorized])
  ∧ GetUserById Sample.ValidateNumber (Sample.by_id "42")
      (Sample.world (Sample.bound 1) [Sample.alice; Sample.bob])
    = (Return tt, after_calls (Sample.world (Sample.bound 1) [Sample.alice; Sample.bob])
                    [res_status_json 200 (JsonUser Sample.bob)])
  ∧ DeleteUserById Sample.ValidateNumber (Sample.by_id "7")
      (Sample.world (Sample.bound 1) [Sample.alice; Sample.bob])
    = (Return tt, after_calls (Sample.world (Sample.bound 1) [Sample.alice; Sample.bob])
                    [res_sendStatus 404]).
Proof.
  split; [|split].
  - apply (by_id_responses Sample.ValidateNumber (Sample.by_id "42")
             (Sample.world Sample.anonymous [Sample.alice; Sample.bob])
             Sample.anonymous); reflexivity.
  - eapply (by_id_responses Sample.ValidateNumber (Sample.by_id "42")
              (Sample.world (Sample.bound 1) [Sample.alice; Sample.bob])
              (Sample.bound 1)); reflexivity.
  - eapply (by_id_responses Sample.ValidateNumber (Sample.by_id "7")
              (Sample.world (Sample.bound 1) [Sample.alice; Sample.bob])
              (Sample.bound 1)); reflexivity.
Defined.

(** ** [new SessionManager()] *)

(** C9.  Whatever the configuration, the constructor throws a
    [ReferenceError] at the call [_createStore()]: the name is a member of
    the class and no binding of the module scope.  [_createStore] has not
    run: [this.storeConfig], [this.store] and [this.redisClient] are
    unassigned, and so are [this.sessionConfig['store']] and
    [this._middleware]. *)
Theorem constructor_throws_before_store (Config : Config.t) :
  ("_createStore" ∈ SessionManager.class_members)
  ∧ ("_createStore" ∉ SessionManager.module_scope)
  ∧ SessionManager.new Config
    = (Throw (mkError "ReferenceError" "_createStore is not defined"),
       {| SessionManager.sessionConfig := Some (Config.session Config);
          SessionManager.sessionConfig_store := None;
          SessionManager.storeConfig := None;
          SessionManager.store := None;
          SessionManager.redisClient := None;
          SessionManager._middleware := None |}).
Proof.
  split; [|split].
  - unfold SessionManager.class_members. set_solver.
  - apply (bool_decide_unpack _). reflexivity.
  - reflexivity.
Qed.

(** * Further properties of the routes *)

Section RouteFacts.

Context {DB : Type} `{!User.Model DB}.
Variable Config : Config.t.
Variable validateRequest : Request → Value * Value.
Variable ValidateNumber : Number → Value.
Implicit Types (w : World DB) (s : Session) (req : Request).

Lemma resolver_no_session w :
  session w = None →
  _LoadLoggedInUser w = (Throw no_session_error, w).
Proof. intros Hs. unfold _LoadLoggedInUser. eff. by rewrite Hs. Qed.

(** The four ways the resolver can end. *)
Lemma resolver_cases w :
  (∃ s, session w = Some s ∧ user_id s = None
        ∧ _LoadLoggedInUser w = (Return None, w))
  ∨ (∃ s uid u, session w = Some s ∧ user_id s = Some uid
                ∧ Load (users w) (Int uid) = Some u
                ∧ _LoadLoggedInUser w = (Return (Some u), w))
  ∨ (stale w ∧ _LoadLoggedInUser w = (Throw stale_error, destroyed w))
  ∨ (session w = None ∧ _LoadLoggedInUser w = (Throw no_session_error, w)).
Proof.
  destruct (session w) as [s|] eqn:Hs.
  - destruct (user_id s) as [uid|] eqn:Hu.
    + destruct (Load (users w) (Int uid)) as [u|] eqn:Hl.
      * right; left. exists s, uid, u. eauto using resolver_found.
      * right; right; left. split; [by exists s, uid|].
        by apply resolver_stale with s uid.
    + left. exists s. eauto using resolver_anonymous.
  - right; right; right. eauto using resolver_no_session.
Qed.

Lemma GetUser_resolver_throws w e w1 :
  _LoadLoggedInUser w = (Throw e, w1) →
  GetUser w = (Return tt, after_calls w1 [next e]).
Proof.
  intros Hr. unfold GetUser, try_catch, mbind, M_bind, bind. by rewrite Hr.
Qed.

Lemma GetUserById_resolver_throws req w e w1 :
  _LoadLoggedInUser w = (Throw e, w1) →
  GetUserById ValidateNumber req w = (Return tt, after_calls w1 [next e]).
Proof.
  intros Hr. unfold GetUserById, try_catch, mbind, M_bind, bind. by rewrite Hr.
Qed.

Lemma DeleteUserById_resolver_throws req w e w1 :
  _LoadLoggedInUser w = (Throw e, w1) →
  DeleteUserById ValidateNumber req w = (Return tt, after_calls w1 [next e]).
Proof.
  intros Hr. unfold DeleteUserById, try_catch, mbind, M_bind, bind.
  by rewrite Hr.
Qed.

Lemma CreateUser_resolver_throws req w e w1 :
  valid validateRequest req →
  _LoadLoggedInUser w = (Throw e, w1) →
  CreateUser Config validateRequest req w = (Return tt, after_calls w1 [next e]).
Proof.
  unfold valid. intros Hv Hr. unfold CreateUser.
  destruct (validateRequest req) as [error message]. cbn in Hv. rewrite Hv.
  unfold try_catch, mbind, M_bind, bind. by rewrite Hr.
Qed.

Lemma GetUser_returned w r :
  _LoadLoggedInUser w = (Return r, w) →
  GetUser w
  = (Return tt,
     after_calls w
       [match r with
        | Some u => res_status_json 200 (JsonUser u)
        | None => res_status_json 202 (JsonMessage (Str "user not logged in"))
        end]).
Proof.
  intros Hr. unfold GetUser, try_catch, mbind, M_bind, bind. rewrite Hr.
  by destruct r.
Qed.

(** The by-id routes read the request through [parsed_id] only. *)
Lemma by_id_through_parsed_id req req' w :
  parsed_id req = parsed_id req' →
  GetUserById ValidateNumber req w = GetUserById ValidateNumber req' w
  ∧ DeleteUserById ValidateNumber req w = DeleteUserById ValidateNumber req' w.
Proof.
  unfold parsed_id. intros Hp. unfold GetUserById, DeleteUserById.
  by rewrite Hp.
Qed.

End RouteFacts.

Section RouteProperties.

Context {DB : Type} `{!User.Model DB}.
Variable Config : Config.t.
Variable validateRequest : Request → Value * Value.
Variable ValidateNumber : Number → Value.
Implicit Types (w : World DB) (s : Session) (req : Request).

Local Ltac settled_by E :=
  eexists _, _; split; [exact E|]; split;
  [ cbn [calls after_calls destroyed]; rewrite <- ?app_assoc; reflexivity
  | unfold one_outcome; eauto 6 ].

(** X1.  In every world and for every request, each of the five handlers returns
    normally, and what it does to [res] and [next] is one of: one response
    sent; [next] called once; the cookie cleared and [next] called once.  No
    handler sends two responses, sends a response and calls [next], or lets
    an exception escape. *)
Theorem handlers_settle req w :
  settles GetUser w
  ∧ settles (CreateUser Config validateRequest req) w
  ∧ settles (GetUserById ValidateNumber req) w
  ∧ settles (DeleteUserById ValidateNumber req) w
  ∧ settles getUsers w.
Proof.
  unfold settles.
  destruct (resolver_cases w)
    as [(s & Hs & Hu & Hr) | [(s & uid & cu & Hs & Hu & Hl & Hr)
       | [[_ Hr] | [_ Hr]]]].
  - repeat split.
    + settled_by (GetUser_returned w None Hr).
    + destruct (bool_decide_reflect (valid validateRequest req)) as [Hv|Hv].
      * destruct (create_call req (users w)) as [[u db']|] eqn:Hc.
        -- settled_by (CreateUser_signup Config validateRequest req w s u db' Hv Hs Hu Hc).
        -- settled_by (CreateUser_conflict Config validateRequest req w None Hv Hr Hc).
      * settled_by (CreateUser_invalid Config validateRequest req w Hv).
    + settled_by (GetUserById_anonymous ValidateNumber req w s Hs Hu).
    + settled_by (DeleteUserById_anonymous ValidateNumber req w s Hs Hu).
    + settled_by (eq_refl (getUsers w)).
  - repeat split.
    + settled_by (GetUser_returned w (Some cu) Hr).
    + destruct (bool_decide_reflect (valid validateRequest req)) as [Hv|Hv].
      * destruct (create_call req (users w)) as [[u db']|] eqn:Hc.
        -- settled_by (CreateUser_by_logged_in Config validateRequest req w cu u db' Hv Hr Hc).
        -- settled_by (CreateUser_conflict Config validateRequest req w (Some cu) Hv Hr Hc).
      * settled_by (CreateUser_invalid Config validateRequest req w Hv).
    + pose proof (GetUserById_logged_in ValidateNumber req w cu Hr) as E.
      destruct (truthy _); [|destruct (Load (users w) (parsed_id req))];
        settled_by E.
    + pose proof (DeleteUserById_logged_in ValidateNumber req w cu Hr) as E.
      destruct (truthy _);
        [|destruct (Delete (users w) (parsed_id req)) as [[u db']|]];
        settled_by E.
    + settled_by (eq_refl (getUsers w)).
  - repeat split.
    + settled_by (GetUser_resolver_throws w _ _ Hr).
    + destruct (bool_decide_reflect (valid validateRequest req)) as [Hv|Hv].
      * settled_by (CreateUser_resolver_throws Config validateRequest req w _ _ Hv Hr).
      * settled_by (CreateUser_invalid Config validateRequest req w Hv).
    + settled_by (GetUserById_resolver_throws ValidateNumber req w _ _ Hr).
    + settled_by (DeleteUserById_resolver_throws ValidateNumber req w _ _ Hr).
    + settled_by (eq_refl (getUsers w)).
  - repeat split.
    + settled_by (GetUser_resolver_throws w _ _ Hr).
    + destruct (bool_decide_reflect (valid validateRequest req)) as [Hv|Hv].
      * settled_by (CreateUser_resolver_throws Config validateRequest req w _ _ Hv Hr).
      * settled_by (CreateUser_invalid Config validateRequest req w Hv).
    + settled_by (GetUserById_resolver_throws ValidateNumber req w _ _ Hr).
    + settled_by (DeleteUserById_resolver_throws ValidateNumber req w _ _ Hr).
    + settled_by (eq_refl (getUsers w)).
Qed.

(** X2.  The resolver returns a user exactly when the attached session is bound
    to an id and the user model loads that user for the id; it then leaves
    the world as it was.  It never returns a user for an anonymous session,
    nor a user other than the one loaded for the session's own id. *)
Theorem LoadLoggedInUser_returns_user_iff w u w' :
  _LoadLoggedInUser w = (Return (Some u), w')
  ↔ ∃ s uid, session w = Some s ∧ user_id s = Some uid
             ∧ Load (users w) (Int uid) = Some u ∧ w' = w.
Proof.
  split.
  - intros Hr.
    destruct (resolver_cases w)
      as [(s & Hs & Hu & Hr') | [(s & uid & cu & Hs & Hu & Hl & Hr')
         | [[_ Hr'] | [_ Hr']]]];
      rewrite Hr' in Hr; try discriminate.
    injection Hr as -> ->. by exists s, uid.
  - intros (s & uid & Hs & Hu & Hl & ->). by apply resolver_found with s uid.
Qed.

(** X3.  [POST /users] validates before anything else.  A request the validator
    turns down is answered 400 with the validator's message in every world:
    the resolver is not consulted, so even a stale or missing session is left
    alone, and no user is created. *)
Theorem CreateUser_invalid_request_touches_nothing req w :
  ¬ valid validateRequest req →
  calls (CreateUser Config validateRequest req w).2
  = calls w ++ [res_status_json 400 (JsonMessage (validateRequest req).2)]
  ∧ session (CreateUser Config validateRequest req w).2 = session w
  ∧ store (CreateUser Config validateRequest req w).2 = store w
  ∧ users (CreateUser Config validateRequest req w).2 = users w.
Proof.
  intros Hv. by rewrite (CreateUser_invalid Config validateRequest req w Hv).
Qed.

(** X4.  A valid signup on a stale session creates no user and gets no response:
    the users are as before, the only calls are the clearing of the cookie
    and one [next] with the resolver's error. *)
Theorem CreateUser_stale_creates_nobody req w :
  valid validateRequest req →
  stale w →
  users (CreateUser Config validateRequest req w).2 = users w
  ∧ calls (CreateUser Config validateRequest req w).2
    = calls w ++ [res_clearCookie; next stale_error].
Proof.
  intros Hv (s & uid & Hs & Hu & Hl).
  rewrite (CreateUser_resolver_throws Config validateRequest req w _ _ Hv
             (resolver_stale w s uid Hs Hu Hl)).
  cbn. by rewrite <- app_assoc.
Qed.

(** X5.  [POST /users] changes the users only on the path that answers 201: when
    the users after the handler differ from the users before, the request
    was valid, the new users are those [Create] returned, and the one call
    made is the 201 with the created row. *)
Theorem CreateUser_changes_users_only_with_201 req w :
  users (CreateUser Config validateRequest req w).2 ≠ users w →
  valid validateRequest req
  ∧ ∃ u, create_call req (users w)
         = Some (u, users (CreateUser Config validateRequest req w).2)
         ∧ calls (CreateUser Config validateRequest req w).2
           = calls w ++ [res_status_json 201 (JsonUser u)].
Proof.
  intros Hne.
  destruct (bool_decide_reflect (valid validateRequest req)) as [Hv|Hv];
    [|by rewrite (CreateUser_invalid Config validateRequest req w Hv) in Hne].
  split; [done|].
  destruct (resolver_cases w)
    as [(s & Hs & Hu & Hr) | [(s & uid & cu & Hs & Hu & Hl & Hr)
       | [[_ Hr] | [_ Hr]]]].
  - destruct (create_call req (users w)) as [[u db']|] eqn:Hc.
    + rewrite (CreateUser_signup Config validateRequest req w s u db' Hv Hs Hu Hc).
      by exists u.
    + by rewrite (CreateUser_conflict Config validateRequest req w None Hv Hr Hc) in Hne.
  - destruct (create_call req (users w)) as [[u db']|] eqn:Hc.
    + rewrite (CreateUser_by_logged_in Config validateRequest req w cu u db' Hv Hr Hc).
      by exists u.
    + by rewrite (CreateUser_conflict Config validateRequest req w (Some cu) Hv Hr Hc) in Hne.
  - by rewrite (CreateUser_resolver_throws Config validateRequest req w _ _ Hv Hr) in Hne.
  - by rewrite (CreateUser_resolver_throws Config validateRequest req w _ _ Hv Hr) in Hne.
Qed.

(** X6.  A signup that succeeds on an anonymous session tests [rememberMe] for
    truthiness and multiplies whatever number of days is configured.  With
    no [rememberMe] key in the body, or a falsy value under it, the cookie is
    the one the session had; with any truthy value (the string ["false"]
    is one) the cookie's [maxAge] is [maxAgeDays * 24 * 60 * 60 * 1000], for
    an integer number of days whose product is within 2^53 in magnitude, so
    that the source's multiplication of doubles is exact. *)
Theorem signup_rememberMe_is_tested_for_truthiness req w s u db' :
  valid validateRequest req →
  session w = Some s →
  user_id s = None →
  create_call req (users w) = Some (u, db') →
  ∃ s', session (CreateUser Config validateRequest req w).2 = Some s'
        ∧ sid s' = sid s
        ∧ user_id s' = Some (id u)
        ∧ (body req !! "rememberMe" = None → cookie s' = cookie s)
        ∧ (∀ v, body req !! "rememberMe" = Some v → truthy v = false →
             cookie s' = cookie s)
        ∧ (∀ v, body req !! "rememberMe" = Some v → truthy v = true →
             exact_as_double
               (Config.maxAgeDays (Config.session Config) * 24 * 60 * 60 * 1000) →
             maxAge (cookie s')
             = Some (Config.maxAgeDays (Config.session Config) * 24 * 60 * 60 * 1000)).
Proof.
  intros Hv Hs Hu Hc.
  rewrite (CreateUser_signup Config validateRequest req w s u db' Hv Hs Hu Hc).
  eexists. split; [reflexivity|]. cbn. unfold prop.
  repeat split.
  - by intros ->.
  - intros v -> Hf. cbn. by rewrite Hf.
  - intros v -> Ht _. cbn. by rewrite Ht.
Qed.

(** X7.  After a signup that succeeds on an anonymous session, the session is
    logged in: when the user model loads the created row under its id, then
    in every later world with the session and the users that the signup
    left, the resolver returns that row and [GET /user] is answered 200 with
    it. *)
Theorem signup_then_GetUser_200 req w s u db' :
  valid validateRequest req →
  session w = Some s →
  user_id s = None →
  create_call req (users w) = Some (u, db') →
  Load db' (Int (id u)) = Some u →
  users (CreateUser Config validateRequest req w).2 = db'
  ∧ ∀ w2,
      session w2 = session (CreateUser Config validateRequest req w).2 →
      users w2 = db' →
      _LoadLoggedInUser w2 = (Return (Some u), w2)
      ∧ GetUser w2
        = (Return tt, after_calls w2 [res_status_json 200 (JsonUser u)]).
Proof.
  intros Hv Hs Hu Hc Hl.
  rewrite (CreateUser_signup Config validateRequest req w s u db' Hv Hs Hu Hc).
  cbn [snd session users]. split; [done|]. intros w2 Hs2 Hdb2.
  assert (Hr : _LoadLoggedInUser w2 = (Return (Some u), w2)).
  { eapply resolver_found; [exact Hs2|done|]. by rewrite Hdb2. }
  split; [exact Hr|]. by rewrite (GetUser_returned _ _ Hr).
Qed.

(** X8.  [GET /user], [GET /user/:id] and [GET /users] never change the users.
    Unless the attached session is stale they change neither the session nor
    the store either ([GET /users] never does). *)
Theorem GET_routes_read_only req w :
  users (GetUser w).2 = users w
  ∧ users (GetUserById ValidateNumber req w).2 = users w
  ∧ getUsers w = (Return tt, after_calls w
                    [res_status_json 200 (JsonMessage (Str "get /users route"))])
  ∧ (¬ stale w →
     session (GetUser w).2 = session w ∧ store (GetUser w).2 = store w
     ∧ session (GetUserById ValidateNumber req w).2 = session w
     ∧ store (GetUserById ValidateNumber req w).2 = store w).
Proof.
  destruct (resolver_cases w)
    as [(s & Hs & Hu & Hr) | [(s & uid & cu & Hs & Hu & Hl & Hr)
       | [[Hst Hr] | [_ Hr]]]].
  - rewrite (GetUser_returned w None Hr),
      (GetUserById_anonymous ValidateNumber req w s Hs Hu). done.
  - rewrite (GetUser_returned w (Some cu) Hr),
      (GetUserById_logged_in ValidateNumber req w cu Hr).
    destruct (truthy _); [done|].
    by destruct (Load (users w) (parsed_id req)).
  - rewrite (GetUser_resolver_throws w _ _ Hr),
      (GetUserById_resolver_throws ValidateNumber req w _ _ Hr). done.
  - rewrite (GetUser_resolver_throws w _ _ Hr),
      (GetUserById_resolver_throws ValidateNumber req w _ _ Hr). done.
Qed.

(** X9.  [DELETE /user/:id] changes the users only for a caller who is logged in
    and an [id] that passed [ValidateNumber]: when the users after the
    handler differ from the users before, the resolver returned a user, the
    validator's result for the parsed id was falsy, the new users are those
    [Delete] returned, and the one call made is the 200 with the row
    [Delete] returned. *)
Theorem DeleteUserById_changes_users_only_with_200 req w :
  users (DeleteUserById ValidateNumber req w).2 ≠ users w →
  ∃ cu u,
    _LoadLoggedInUser w = (Return (Some cu), w)
    ∧ truthy (ValidateNumber (parsed_id req)) = false
    ∧ Delete (users w) (parsed_id req)
      = Some (u, users (DeleteUserById ValidateNumber req w).2)
    ∧ calls (DeleteUserById ValidateNumber req w).2
      = calls w ++ [res_status_json 200 (JsonUser u)].
Proof.
  intros Hne.
  destruct (resolver_cases w)
    as [(s & Hs & Hu & Hr) | [(s & uid & cu & Hs & Hu & Hl & Hr)
       | [[_ Hr] | [_ Hr]]]].
  - by rewrite (DeleteUserById_anonymous ValidateNumber req w s Hs Hu) in Hne.
  - rewrite (DeleteUserById_logged_in ValidateNumber req w cu Hr) in Hne |- *.
    destruct (truthy (ValidateNumber (parsed_id req))); [done|].
    destruct (Delete (users w) (parsed_id req)) as [[u db']|]; [|done].
    by exists cu, u.
  - by rewrite (DeleteUserById_resolver_throws ValidateNumber req w _ _ Hr) in Hne.
  - by rewrite (DeleteUserById_resolver_throws ValidateNumber req w _ _ Hr) in Hne.
Qed.

(** X10.  A logged-in user who deletes their own id is answered 200 and keeps a
    session bound to that id: [DELETE /user/:id] does not touch the session.
    Once the user model no longer loads the id, every later run of
    [GET /user] on that session and those users finds it stale: no 202, the
    session is destroyed and the error goes to [next]. *)
Theorem delete_own_account_leaves_stale_session req w s uid cu u db' :
  session w = Some s →
  user_id s = Some uid →
  Load (users w) (Int uid) = Some cu →
  parsed_id req = Int uid →
  truthy (ValidateNumber (Int uid)) = false →
  Delete (users w) (Int uid) = Some (u, db') →
  Load db' (Int uid) = None →
  DeleteUserById ValidateNumber req w
  = (Return tt, after_calls (with_users w db') [res_status_json 200 (JsonUser u)])
  ∧ session (DeleteUserById ValidateNumber req w).2 = Some s
  ∧ ∀ w2, session w2 = Some s → users w2 = db' →
      stale w2
      ∧ GetUser w2 = (Return tt, after_calls (destroyed w2) [next stale_error]).
Proof.
  intros Hs Hu Hl Hid Hv Hd Hl'.
  rewrite (DeleteUserById_logged_in ValidateNumber req w cu
             (resolver_found w s uid cu Hs Hu Hl)).
  rewrite Hid, Hv, Hd. split; [done|]. split; [done|].
  intros w2 Hs2 Hdb2. split.
  - exists s, uid. by rewrite Hdb2.
  - apply GetUser_resolver_throws, resolver_stale with s uid; [done..|].
    by rewrite Hdb2.
Qed.

End RouteProperties.

(** ** The [id] parameter as the by-id routes read it *)

Lemma skip_white_app (ws s : string) :
  all_white ws = true → skip_white (ws +:+ s) = skip_white s.
Proof.
  induction ws as [|c ws IH]; [done|]. cbn. intros Hw.
  apply andb_true_iff in Hw as [Hc Hw].
  change (String c ws +:+ s) with (String c (ws +:+ s)). cbn.
  rewrite Hc. by apply IH.
Qed.

Lemma parseInt_skips_white (ws s : string) :
  all_white ws = true → parseInt (ws +:+ s) = parseInt s.
Proof. intros Hw. unfold parseInt. by rewrite skip_white_app. Qed.

Lemma pretty_N_char_digit (m : N) :
  (m < 10)%N →
  is_digit (pretty_N_char m) = true
  ∧ digit_of (pretty_N_char m) = Some (Z.of_N m).
Proof.
  intros Hm.
  assert (m = 0 ∨ m = 1 ∨ m = 2 ∨ m = 3 ∨ m = 4 ∨ m = 5 ∨ m = 6 ∨ m = 7
          ∨ m = 8 ∨ m = 9)%N as Hc by lia.
  repeat (destruct Hc as [->|Hc]; [done|]). by subst.
Qed.

Lemma pretty_N_go_all_digits (x : N) (s : string) :
  all_digits s = true → all_digits (pretty_N_go x s) = true.
Proof.
  revert s. induction (N.lt_wf_0 x) as [x _ IH]. intros s Hs.
  destruct (decide (x = 0)%N) as [->|Hx]; [by rewrite pretty_N_go_0|].
  rewrite pretty_N_go_step by lia. apply IH.
  - apply N.div_lt; lia.
  - cbn. rewrite Hs, andb_true_r.
    apply pretty_N_char_digit, N.mod_lt. lia.
Qed.

Lemma pretty_N_go_nonempty (x : N) (s : string) :
  s ≠ "" → pretty_N_go x s ≠ "".
Proof.
  revert s. induction (N.lt_wf_0 x) as [x _ IH]. intros s Hs.
  destruct (decide (x = 0)%N) as [->|Hx]; [by rewrite pretty_N_go_0|].
  rewrite pretty_N_go_step by lia. apply IH; [apply N.div_lt; lia|done].
Qed.

Lemma digits_pretty_N_go (x : N) (s : string) (acc : option Z) :
  (0 < x)%N →
  ∃ k : nat, digits 10 (pretty_N_go x s) acc
             = digits 10 s (Some (default 0 acc * 10 ^ Z.of_nat k + Z.of_N x)).
Proof.
  revert s acc. induction (N.lt_wf_0 x) as [x _ IH]. intros s acc Hx.
  rewrite pretty_N_go_step by done.
  assert (Hr : (x `mod` 10 < 10)%N) by (apply N.mod_lt; lia).
  destruct (pretty_N_char_digit _ Hr) as [_ Hd].
  assert (Hx10 : Z.of_N x = 10 * Z.of_N (x `div` 10) + Z.of_N (x `mod` 10)).
  { rewrite N2Z.inj_div, N2Z.inj_mod. apply Z.div_mod. lia. }
  destruct (decide (x `div` 10 = 0)%N) as [Hq|Hq].
  - rewrite Hq, pretty_N_go_0. exists 1%nat. cbn [digits]. rewrite Hd.
    destruct (Z.ltb_spec (Z.of_N (x `mod` 10)) 10); [|lia].
    f_equal. f_equal. rewrite Hx10, Hq. lia.
  - destruct (IH (x `div` 10)%N) with
      (s := String (pretty_N_char (x `mod` 10)) s) (acc := acc) as [k Hk].
    { apply N.div_lt; lia. }
    { lia. }
    exists (S k). rewrite Hk. cbn [digits]. rewrite Hd.
    destruct (Z.ltb_spec (Z.of_N (x `mod` 10)) 10); [|lia].
    f_equal. f_equal. cbn [default]. unfold Datatypes.id.
    rewrite Hx10, Nat2Z.inj_succ, Z.pow_succ_r by lia. ring.
Qed.

Lemma parseInt_decimal (d : string) :
  all_digits d = true → d ≠ "" →
  parseInt d = match digits 10 d None with
               | None => NaN
               | Some m => Int m
               end
  ∧ parseInt ("-" +:+ d) = match digits 10 d None with
                            | None => NaN
                            | Some m => Int (- m)
                            end.
Proof.
  intros Hd Hne.
  destruct (read_radix_decimal d "" Hne Hd) as [_ Hrad].
  { by rewrite andb_false_r. }
  destruct d as [|c d]; [done|].
  cbn in Hd. apply andb_true_iff in Hd as [Hc Hd].
  destruct (digit_facts c Hc) as (Hw & Hm & Hp & _).
  assert (Hsg : read_sign (String c d) = (1, String c d)).
  { unfold read_sign. destruct c as [[] [] [] [] [] [] [] []]; done. }
  split.
  - unfold parseInt. cbn [skip_white]. rewrite Hw, Hsg, Hrad.
    destruct (digits 10 (String c d) None); [|done]. f_equal; lia.
  - change ("-" +:+ String c d) with (String "-" (String c d)).
    assert (Hsk : skip_white (String "-" (String c d)) = String "-" (String c d))
      by reflexivity.
    assert (Hneg : read_sign (String "-" (String c d)) = (-1, String c d))
      by reflexivity.
    unfold parseInt. rewrite Hsk, Hneg, Hrad.
    destruct (digits 10 (String c d) None); [|done]. f_equal; lia.
Qed.

(** [parseInt] reads back the decimal notation of every integer. *)
Lemma parseInt_pretty (z : Z) : parseInt (pretty z) = Int z.
Proof.
  assert (Hpos : ∀ p : positive,
            all_digits (pretty p) = true ∧ pretty p ≠ ""
            ∧ digits 10 (pretty p) None = Some (Z.pos p)).
  { intros p. unfold pretty, pretty_positive, pretty, pretty_N.
    destruct (decide (N.pos p = 0%N)) as [|_]; [done|].
    split; [by apply pretty_N_go_all_digits|]. split.
    - rewrite pretty_N_go_step by lia. by apply pretty_N_go_nonempty.
    - destruct (digits_pretty_N_go (N.pos p) "" None) as [k ->]; [lia|].
      cbn. f_equal. }
  destruct z as [|p|p].
  - reflexivity.
  - destruct (Hpos p) as (Hd & Hne & Hv).
    change (pretty (Z.pos p)) with (pretty p).
    rewrite (proj1 (parseInt_decimal _ Hd Hne)). by rewrite Hv.
  - destruct (Hpos p) as (Hd & Hne & Hv).
    change (pretty (Z.neg p)) with ("-" +:+ pretty p).
    rewrite (proj2 (parseInt_decimal _ Hd Hne)). by rewrite Hv.
Qed.

Lemma parseInt_no_digit (i : string) :
  starts_with is_digit (read_sign (skip_white i)).2 = false →
  parseInt i = NaN.
Proof.
  unfold parseInt. destruct (read_sign (skip_white i)) as [sg s1]. cbn [snd].
  destruct s1 as [|c r]; [done|]. cbn [starts_with]. intros Hc.
  pose proof (nondigit_facts c Hc) as Hv.
  assert (Hrad : read_radix (String c r) = (10, String c r)).
  { unfold read_radix. destruct c as [[] [] [] [] [] [] [] []]; done. }
  rewrite Hrad. cbn [digits].
  destruct (digit_of c) as [v|]; [|done].
  by destruct (Z.ltb_spec v 10); [lia|].
Qed.

Section IdParameter.

Context {DB : Type} `{!User.Model DB}.
Variable ValidateNumber : Number → Value.
Implicit Types (w : World DB) (req : Request).

(** X11.  White space in front of the [id] parameter is skipped: the by-id routes
    answer [/user/%2042] as they answer [/user/42], in every world. *)
Theorem by_id_ignores_leading_white_space req req' ws i w :
  all_white ws = true →
  params req !! "id" = Some (ws +:+ i) →
  params req' !! "id" = Some i →
  parsed_id req = parsed_id req'
  ∧ GetUserById ValidateNumber req w = GetUserById ValidateNumber req' w
  ∧ DeleteUserById ValidateNumber req w = DeleteUserById ValidateNumber req' w.
Proof.
  intros Hw Hid Hid'.
  assert (Hp : parsed_id req = parsed_id req').
  { unfold parsed_id. rewrite Hid, Hid'. cbn. by apply parseInt_skips_white. }
  split; [done|]. by apply by_id_through_parsed_id.
Qed.

(** X12.  The decimal notation of an integer [z] of magnitude up to 2^53 (up
    to which [parseInt]'s double is the integer itself) as [id] parameter is
    parsed back to [z]: for a logged-in caller and a [z] that [ValidateNumber] lets
    through, [GET /user/z] answers by what the user model loads for [z] (404
    or 200 with the row) and [DELETE /user/z] by what it deletes for [z]. *)
Theorem by_id_decimal_id_reaches_that_id (z : Z) req w cu :
  exact_as_double z →
  params req !! "id" = Some (pretty z) →
  _LoadLoggedInUser w = (Return (Some cu), w) →
  truthy (ValidateNumber (Int z)) = false →
  parsed_id req = Int z
  ∧ GetUserById ValidateNumber req w
    = (Return tt,
       match Load (users w) (Int z) with
       | None => after_calls w [res_sendStatus 404]
       | Some u => after_calls w [res_status_json 200 (JsonUser u)]
       end)
  ∧ DeleteUserById ValidateNumber req w
    = (Return tt,
       match Delete (users w) (Int z) with
       | None => after_calls w [res_sendStatus 404]
       | Some (u, db') =>
           after_calls (with_users w db') [res_status_json 200 (JsonUser u)]
       end).
Proof.
  intros _ Hid Hr Hv.
  assert (Hp : parsed_id req = Int z).
  { unfold parsed_id. rewrite Hid. cbn. apply parseInt_pretty. }
  rewrite (GetUserById_logged_in ValidateNumber req w cu Hr),
    (DeleteUserById_logged_in ValidateNumber req w cu Hr), Hp, Hv.
  done.
Qed.

(** X13.  An [id] parameter that is missing, or that after white space and one
    sign does not go on with a decimal digit, is parsed to [NaN]: with a
    [ValidateNumber] that turns [NaN] down, a logged-in caller is answered
    400 with the validator's message, and the user model is not asked. *)
Theorem by_id_without_digits_is_400 req w cu :
  _LoadLoggedInUser w = (Return (Some cu), w) →
  truthy (ValidateNumber NaN) = true →
  (params req !! "id" = None
   ∨ ∃ i, params req !! "id" = Some i
          ∧ starts_with is_digit (read_sign (skip_white i)).2 = false) →
  parsed_id req = NaN
  ∧ GetUserById ValidateNumber req w
    = (Return tt, after_calls w [res_status_json 400 (JsonMessage (ValidateNumber NaN))])
  ∧ DeleteUserById ValidateNumber req w
    = (Return tt, after_calls w [res_status_json 400 (JsonMessage (ValidateNumber NaN))]).
Proof.
  intros Hr Hv Hid.
  assert (Hp : parsed_id req = NaN).
  { unfold parsed_id. destruct Hid as [-> | (i & -> & Hi)]; [done|].
    cbn. by apply parseInt_no_digit. }
  rewrite (GetUserById_logged_in ValidateNumber req w cu Hr),
    (DeleteUserById_logged_in ValidateNumber req w cu Hr), Hp, Hv.
  done.
Qed.

End IdParameter.

(** ** The further properties on sample data *)

Lemma CreateUser_invalid_request_witness :
  calls (CreateUser (Sample.config 7) Sample.validateRequest (Sample.by_id "1")
           (Sample.world (Sample.bound 42) [Sample.alice])).2
  = [res_status_json 400 (JsonMessage (Str "email and password required"))]
  ∧ session (CreateUser (Sample.config 7) Sample.validateRequest (Sample.by_id "1")
               (Sample.world (Sample.bound 42) [Sample.alice])).2
    = Some (Sample.bound 42).
Proof.
  destruct (CreateUser_invalid_request_touches_nothing (Sample.config 7)
              Sample.validateRequest (Sample.by_id "1")
              (Sample.world (Sample.bound 42) [Sample.alice]))
    as (H1 & H2 & _); [discriminate|].
  split; [exact H1 | exact H2].
Defined.

Lemma CreateUser_stale_witness :
  users (CreateUser (Sample.config 7) Sample.validateRequest
           (Sample.signup (Bool false))
           (Sample.world (Sample.bound 42) [Sample.alice])).2
  = [Sample.alice]
  ∧ calls (CreateUser (Sample.config 7) Sample.validateRequest
             (Sample.signup (Bool false))
             (Sample.world (Sample.bound 42) [Sample.alice])).2
    = [res_clearCookie; next stale_error].
Proof.
  apply (CreateUser_stale_creates_nobody (Sample.config 7)
           Sample.validateRequest (Sample.signup (Bool false))
           (Sample.world (Sample.bound 42) [Sample.alice])).
  - reflexivity.
  - exists (Sample.bound 42), 42. repeat split; reflexivity.
Defined.

Lemma CreateUser_changes_users_witness :
  valid Sample.validateRequest (Sample.signup (Bool false))
  ∧ ∃ u, create_call (Sample.signup (Bool false)) []
         = Some (u, users (CreateUser (Sample.config 7) Sample.validateRequest
                             (Sample.signup (Bool false))
                             (Sample.world Sample.anonymous [])).2)
         ∧ calls (CreateUser (Sample.config 7) Sample.validateRequest
                    (Sample.signup (Bool false))
                    (Sample.world Sample.anonymous [])).2
           = [res_status_json 201 (JsonUser u)].
Proof.
  apply (CreateUser_changes_users_only_with_201 (Sample.config 7)
           Sample.validateRequest (Sample.signup (Bool false))
           (Sample.world Sample.anonymous [])).
  vm_compute. discriminate.
Defined.

Lemma signup_rememberMe_string_false_witness :
  ∃ s', session (CreateUser (Sample.config 30) Sample.validateRequest
                   (Sample.signup (Str "false"))
                   (Sample.world Sample.anonymous [])).2 = Some s'
        ∧ maxAge (cookie s') = Some 2592000000.
Proof.
  destruct (signup_rememberMe_is_tested_for_truthiness (Sample.config 30)
              Sample.validateRequest (Sample.signup (Str "false"))
              (Sample.world Sample.anonymous []) Sample.anonymous
              Sample.newcomer [Sample.newcomer])
    as (s' & H1 & _ & _ & _ & _ & H6); [reflexivity..|].
  exists s'. split; [exact H1|].
  apply (H6 (Str "false")); [reflexivity | reflexivity |].
  unfold exact_as_double. vm_compute. discriminate.
Defined.

Lemma signup_then_GetUser_200_witness :
  GetUser (Sample.world
             {| sid := "s1"; user_id := Some 1; cookie := {| maxAge := None |} |}
             [Sample.newcomer])
  = (Return tt,
     after_calls
       (Sample.world
          {| sid := "s1"; user_id := Some 1; cookie := {| maxAge := None |} |}
          [Sample.newcomer])
       [res_status_json 200 (JsonUser Sample.newcomer)]).
Proof.
  destruct (signup_then_GetUser_200 (Sample.config 7) Sample.validateRequest
              (Sample.signup (Bool false)) (Sample.world Sample.anonymous [])
              Sample.anonymous Sample.newcomer [Sample.newcomer])
    as [_ H2]; [reflexivity..|].
  apply H2; reflexivity.
Defined.

Lemma GET_routes_read_only_witness :
  session (GetUserById Sample.ValidateNumber (Sample.by_id "42")
             (Sample.world (Sample.bound 1) [Sample.alice; Sample.bob])).2
  = Some (Sample.bound 1)
  ∧ store (GetUserById Sample.ValidateNumber (Sample.by_id "42")
             (Sample.world (Sample.bound 1) [Sample.alice; Sample.bob])).2
    = {[ "s1" := Sample.bound 1 ]}.
Proof.
  destruct (GET_routes_read_only Sample.ValidateNumber (Sample.by_id "42")
              (Sample.world (Sample.bound 1) [Sample.alice; Sample.bob]))
    as (_ & _ & _ & H4).
  destruct H4 as (_ & _ & H3 & H4).
  - intros (s & uid & Hs & Hu & Hl). injection Hs as <-.
    injection Hu as <-. discriminate Hl.
  - split; [exact H3 | exact H4].
Defined.

Lemma DeleteUserById_changes_users_witness :
  ∃ cu u,
    _LoadLoggedInUser (Sample.world (Sample.bound 1) [Sample.alice; Sample.bob])
    = (Return (Some cu), Sample.world (Sample.bound 1) [Sample.alice; Sample.bob])
    ∧ truthy (Sample.ValidateNumber (parsed_id (Sample.by_id "42"))) = false
    ∧ Delete [Sample.alice; Sample.bob] (parsed_id (Sample.by_id "42"))
      = Some (u, users (DeleteUserById Sample.ValidateNumber (Sample.by_id "42")
                          (Sample.world (Sample.bound 1) [Sample.alice; Sample.bob])).2)
    ∧ calls (DeleteUserById Sample.ValidateNumber (Sample.by_id "42")
               (Sample.world (Sample.bound 1) [Sample.alice; Sample.bob])).2
      = [res_status_json 200 (JsonUser u)].
Proof.
  apply (DeleteUserById_changes_users_only_with_200 Sample.ValidateNumber
           (Sample.by_id "42")
           (Sample.world (Sample.bound 1) [Sample.alice; Sample.bob])).
  vm_compute. discriminate.
Defined.

Lemma delete_own_account_witness :
  session (DeleteUserById Sample.ValidateNumber (Sample.by_id "1")
             (Sample.world (Sample.bound 1) [Sample.alice; Sample.bob])).2
  = Some (Sample.bound 1)
  ∧ GetUser (Sample.world (Sample.bound 1) [Sample.bob])
    = (Return tt, after_calls (destroyed (Sample.world (Sample.bound 1) [Sample.bob]))
                    [next stale_error]).
Proof.
  destruct (delete_own_account_leaves_stale_session Sample.ValidateNumber
              (Sample.by_id "1")
              (Sample.world (Sample.bound 1) [Sample.alice; Sample.bob])
              (Sample.bound 1) 1 Sample.alice Sample.alice [Sample.bob])
    as (_ & H2 & H3); [reflexivity..|].
  split; [exact H2|].
  apply (H3 (Sample.world (Sample.bound 1) [Sample.bob])); reflexivity.
Defined.

Lemma by_id_leading_white_space_witness :
  parsed_id (Sample.by_id " 42") = parsed_id (Sample.by_id "42")
  ∧ GetUserById Sample.ValidateNumber (Sample.by_id " 42")
      (Sample.world (Sample.bound 1) [Sample.alice; Sample.bob])
    = GetUserById Sample.ValidateNumber (Sample.by_id "42")
        (Sample.world (Sample.bound 1) [Sample.alice; Sample.bob])
  ∧ DeleteUserById Sample.ValidateNumber (Sample.by_id " 42")
      (Sample.world (Sample.bound 1) [Sample.alice; Sample.bob])
    = DeleteUserById Sample.ValidateNumber (Sample.by_id "42")
        (Sample.world (Sample.bound 1) [Sample.alice; Sample.bob]).
Proof.
  apply (by_id_ignores_leading_white_space Sample.ValidateNumber
           (Sample.by_id " 42") (Sample.by_id "42") " " "42");
    reflexivity.
Defined.

Lemma by_id_decimal_id_witness :
  parsed_id (Sample.by_id "42") = Int 42
  ∧ GetUserById Sample.ValidateNumber (Sample.by_id "42")
      (Sample.world (Sample.bound 1) [Sample.alice; Sample.bob])
    = (Return tt, after_calls (Sample.world (Sample.bound 1) [Sample.alice; Sample.bob])
                    [res_status_json 200 (JsonUser Sample.bob)]).
Proof.
  destruct (by_id_decimal_id_reaches_that_id Sample.ValidateNumber 42
              (Sample.by_id "42")
              (Sample.world (Sample.bound 1) [Sample.alice; Sample.bob])
              Sample.alice)
    as (H1 & H2 & _);
    [unfold exact_as_double; vm_compute; discriminate | reflexivity..|].
  split; [exact H1 | exact H2].
Defined.

Lemma by_id_without_digits_witness :
  parsed_id (Sample.by_id "abc") = NaN
  ∧ GetUserById Sample.ValidateNumber (Sample.by_id "abc")
      (Sample.world (Sample.bound 1) [Sample.alice; Sample.bob])
    = (Return tt, after_calls (Sample.world (Sample.bound 1) [Sample.alice; Sample.bob])
                    [res_status_json 400 (JsonMessage (Str "not a number"))]).
Proof.
  destruct (by_id_without_digits_is_400 Sample.ValidateNumber
              (Sample.by_id "abc")
              (Sample.world (Sample.bound 1) [Sample.alice; Sample.bob])
              Sample.alice)
    as (H1 & H2 & _);
    [reflexivity | reflexivity | right; exists "abc"; split; reflexivity | ].
  split; [exact H1 | exact H2].
Defined.

(** ** The [id] parameter is parsed before it is validated *)

Lemma pretty_positive_digits (p : positive) :
  all_digits (pretty p) = true ∧ pretty p ≠ "" ∧ pretty p ≠ "0"
  ∧ read_sign (pretty p) = (1, pretty p).
Proof.
  assert (Hd : all_digits (pretty p) = true ∧ pretty p ≠ "" ∧ pretty p ≠ "0").
  { unfold pretty, pretty_positive, pretty, pretty_N.
    destruct (decide (N.pos p = 0%N)) as [|_]; [done|].
    split; [by apply pretty_N_go_all_digits|]. split.
    - rewrite pretty_N_go_step by lia. by apply pretty_N_go_nonempty.
    - by apply pretty_N_go_ne_0. }
  destruct Hd as (Hd & Hne & H0). repeat split; try done.
  destruct (pretty p) as [|c d]; [done|].
  cbn in Hd. apply andb_true_iff in Hd as [Hc _].
  unfold read_sign. destruct c as [[] [] [] [] [] [] [] []]; done.
Qed.

(** The decimal notation of [z], followed by a tail that ends it, starts
    with an integer in the sense of [leading_integer]. *)
Lemma pretty_leading_integer (z : Z) (rest : string) :
  ends_integer z rest → leading_integer (pretty z) rest = true.
Proof.
  intros [Hr Hx]. unfold leading_integer, unsigned_literal.
  destruct z as [|p|p].
  - change (pretty 0) with "0". cbn. rewrite Hr, (Hx eq_refl). done.
  - change (pretty (Z.pos p)) with (pretty p).
    destruct (pretty_positive_digits p) as (Hd & Hne & H0 & ->). cbn [snd].
    apply String.eqb_neq in Hne, H0. by rewrite Hne, H0, Hd, Hr.
  - change (pretty (Z.neg p)) with ("-" +:+ pretty p).
    destruct (pretty_positive_digits p) as (Hd & Hne & H0 & _).
    assert (Hsg : read_sign ("-" +:+ pretty p) = (-1, pretty p)) by reflexivity.
    rewrite Hsg. cbn [snd].
    apply String.eqb_neq in Hne, H0. by rewrite Hne, H0, Hd, Hr.
Qed.

Lemma parseInt_pretty_then (z : Z) (rest : string) :
  ends_integer z rest → parseInt (pretty z +:+ rest) = Int z.
Proof.
  intros He. rewrite parseInt_leading_integer by by apply pretty_leading_integer.
  apply parseInt_pretty.
Qed.

Section ParsedBeforeValidated.

Context {DB : Type} `{!User.Model DB}.
Variable ValidateNumber : Number → Value.
Implicit Types (w : World DB) (req : Request).

(** C10, amended.  The by-id routes parse the [id] parameter with [parseInt]
    and validate the parsed value, for a caller who is logged in:
    - an [id] made of the decimal notation of an integer [z] of magnitude up
      to 2^53 and a tail that does not go on with a digit (nor, after a lone
      [0], with [x] or [X]) is parsed to [z]: the answer is 400 with the
      validator's message when [ValidateNumber] turns [z] down, and otherwise
      [GET] answers by what the user model loads for [z] (404, or 200 with
      the row) and [DELETE] by what it deletes for [z];
    - whatever the [id], the one call made is a 400 exactly when
      [ValidateNumber] turns the parsed value down;
    - an [id] that starts with a run of digits, signed or not, in the sense
      of [leading_integer] gets the answer that the run alone gets. *)
Theorem by_id_leading_integer_is_the_id w cu :
  _LoadLoggedInUser w = (Return (Some cu), w) →
  (∀ req z rest,
     exact_as_double z →
     ends_integer z rest →
     params req !! "id" = Some (pretty z +:+ rest) →
     parsed_id req = Int z
     ∧ GetUserById ValidateNumber req w
       = (Return tt,
          if truthy (ValidateNumber (Int z))
          then after_calls w [res_status_json 400 (JsonMessage (ValidateNumber (Int z)))]
          else match Load (users w) (Int z) with
               | None => after_calls w [res_sendStatus 404]
               | Some u => after_calls w [res_status_json 200 (JsonUser u)]
               end)
     ∧ DeleteUserById ValidateNumber req w
       = (Return tt,
          if truthy (ValidateNumber (Int z))
          then after_calls w [res_status_json 400 (JsonMessage (ValidateNumber (Int z)))]
          else match Delete (users w) (Int z) with
               | None => after_calls w [res_sendStatus 404]
               | Some (u, db') =>
                   after_calls (with_users w db') [res_status_json 200 (JsonUser u)]
               end))
  ∧ (∀ req,
     (∃ c, calls (GetUserById ValidateNumber req w).2 = calls w ++ [c]
           ∧ (answers 400 c = true ↔ truthy (ValidateNumber (parsed_id req)) = true))
     ∧ (∃ c, calls (DeleteUserById ValidateNumber req w).2 = calls w ++ [c]
             ∧ (answers 400 c = true ↔ truthy (ValidateNumber (parsed_id req)) = true)))
  ∧ (∀ req req' d rest,
     leading_integer d rest = true →
     params req !! "id" = Some (d +:+ rest) →
     params req' !! "id" = Some d →
     parsed_id req = parseInt d
     ∧ GetUserById ValidateNumber req w = GetUserById ValidateNumber req' w
     ∧ DeleteUserById ValidateNumber req w = DeleteUserById ValidateNumber req' w).
Proof.
  intros Hr. split; [|split].
  - intros req z rest _ He Hid.
    assert (Hp : parsed_id req = Int z).
    { unfold parsed_id. rewrite Hid. cbn. by apply parseInt_pretty_then. }
    rewrite (GetUserById_logged_in ValidateNumber req w cu Hr),
      (DeleteUserById_logged_in ValidateNumber req w cu Hr), Hp.
    done.
  - intros req.
    rewrite (GetUserById_logged_in ValidateNumber req w cu Hr).
    rewrite (DeleteUserById_logged_in ValidateNumber req w cu Hr).
    destruct (truthy (ValidateNumber (parsed_id req))); cbn [snd].
    + split; eexists; (split; [reflexivity|]); done.
    + split.
      * destruct (Load (users w) (parsed_id req));
          eexists; (split; [reflexivity|]); done.
      * destruct (Delete (users w) (parsed_id req)) as [[u db']|];
          eexists; (split; [reflexivity|]); done.
  - intros req req' d rest Hd Hid Hid'.
    assert (Heq : parsed_id req = parsed_id req').
    { unfold parsed_id. rewrite Hid, Hid'. cbn.
      by apply parseInt_leading_integer. }
    split.
    { rewrite Heq. unfold parsed_id. by rewrite Hid'. }
    by apply by_id_through_parsed_id.
Qed.

End ParsedBeforeValidated.

(** C10, as stated, fails on an [id] that goes on with [x] after a lone [0].
    ["0x1f"] and ["0xg"] start with the integer 0 (the digit [0], then a
    character that is no digit), but neither is treated as id 0: [parseInt]
    takes [0x] for a hexadecimal prefix, so ["0x1f"] is 31 and Carol (31) is
    returned where id 0 is answered 404, and ["0xg"] is [NaN] and is turned
    down with a 400 by a validator that lets 0 through. *)
Lemma by_id_0x_is_not_id_0 :
  "0" +:+ "x1f" = "0x1f"
  ∧ "0" +:+ "xg" = "0xg"
  ∧ all_digits "0" = true
  ∧ starts_with is_digit "x1f" = false
  ∧ starts_with is_digit "xg" = false
  ∧ parsed_id (Sample.by_id "0") = Int 0
  ∧ parsed_id (Sample.by_id "0x1f") = Int 31
  ∧ parsed_id (Sample.by_id "0xg") = NaN
  ∧ truthy (Sample.ValidateNumber (Int 0)) = false
  ∧ calls (GetUserById Sample.ValidateNumber (Sample.by_id "0") HexSample.world).2
    = [res_sendStatus 404]
  ∧ calls (GetUserById Sample.ValidateNumber (Sample.by_id "0x1f")
             HexSample.world).2
    = [res_status_json 200 (JsonUser HexSample.carol)]
  ∧ calls (GetUserById Sample.ValidateNumber (Sample.by_id "0xg")
             HexSample.world).2
    = [res_status_json 400 (JsonMessage (Str "not a number"))]
  ∧ calls (DeleteUserById Sample.ValidateNumber (Sample.by_id "0") HexSample.world).2
    = [res_sendStatus 404]
  ∧ calls (DeleteUserById Sample.ValidateNumber (Sample.by_id "0x1f")
             HexSample.world).2
    = [res_status_json 200 (JsonUser HexSample.carol)].
Proof. repeat split; reflexivity. Qed.

Lemma by_id_leading_integer_witness :
  parsed_id (Sample.by_id ("42" +:+ "abc")) = Int 42
  ∧ GetUserById Sample.ValidateNumber (Sample.by_id ("42" +:+ "abc"))
      (Sample.world (Sample.bound 1) [Sample.alice; Sample.bob])
    = (Return tt, after_calls (Sample.world (Sample.bound 1) [Sample.alice; Sample.bob])
                    [res_status_json 200 (JsonUser Sample.bob)])
  ∧ DeleteUserById Sample.ValidateNumber (Sample.by_id ("42" +:+ "abc"))
      (Sample.world (Sample.bound 1) [Sample.alice; Sample.bob])
    = (Return tt, after_calls
                    (with_users (Sample.world (Sample.bound 1) [Sample.alice; Sample.bob])
                       [Sample.alice])
                    [res_status_json 200 (JsonUser Sample.bob)]).
Proof.
  assert (Hr : _LoadLoggedInUser
                 (Sample.world (Sample.bound 1) [Sample.alice; Sample.bob])
               = (Return (Some Sample.alice),
                  Sample.world (Sample.bound 1) [Sample.alice; Sample.bob]))
    by reflexivity.
  apply (proj1 (by_id_leading_integer_is_the_id Sample.ValidateNumber
                  (Sample.world (Sample.bound 1) [Sample.alice; Sample.bob])
                  Sample.alice Hr)
           (Sample.by_id ("42" +:+ "abc")) 42 "abc").
  - unfold exact_as_double. vm_compute. discriminate.
  - split; [reflexivity | discriminate].
  - reflexivity.
Defined.
